(** * ATLAS: the input form, the report page and the decision core

    The development embeds the two pages of the Next.js front end
    ([app/page.tsx], the input form, and [app/report/page.tsx], the memo
    viewer) together with the ECMAScript built-ins they call, and the parts
    of the decision core that the front end only consumes.  Component state
    is threaded explicitly; the browser (localStorage, router, console) is a
    record that the handlers transform. *)

From Stdlib Require Import ZArith NArith QArith Qabs Qminmax Qpower Qround Lqa.
From Stdlib Require Import List Bool Ascii String Lia.
From Stdlib Require Import Sorting.Sorted Sorting.Permutation.
From stdpp Require Import base option list gmap strings.

(** * ECMAScript built-ins *)

Module JS.

(** A JavaScript string is its sequence of UTF-16 code units. *)
Abbreviation jsstring := (list N).

(** String literals of the source, as code units. *)
Definition js (s : string) : jsstring :=
  (λ a, N_of_ascii a) <$> list_ascii_of_string s.

(** WhiteSpace and LineTerminator code points (ECMA-262, 12.2 and 12.3):
    the characters [String.prototype.trim] and [parseFloat] strip. *)
Definition is_whitespace (c : N) : bool :=
  ((c =? 0x9) || (c =? 0xA) || (c =? 0xB) || (c =? 0xC) || (c =? 0xD)
   || (c =? 0x20) || (c =? 0xA0) || (c =? 0x1680)
   || ((0x2000 <=? c) && (c <=? 0x200A))
   || (c =? 0x2028) || (c =? 0x2029) || (c =? 0x202F) || (c =? 0x205F)
   || (c =? 0x3000) || (c =? 0xFEFF))%N.

Fixpoint trimStart (s : jsstring) : jsstring :=
  match s with
  | c :: r => if is_whitespace c then trimStart r else s
  | [] => []
  end.

Definition trimEnd (s : jsstring) : jsstring := rev (trimStart (rev s)).

(** [String.prototype.trim] *)
Definition trim (s : jsstring) : jsstring := trimEnd (trimStart s).

(** ToBoolean on a string: only the empty string is falsy. *)
Definition truthy (s : jsstring) : bool :=
  match s with [] => false | _ :: _ => true end.

(** ToBoolean on a property read that may yield [undefined]. *)
Definition truthy_prop (o : option jsstring) : bool :=
  match o with Some s => truthy s | None => false end.

(** Number values.  A finite value is kept as the exact rational the decimal
    text denotes.  Rounding to binary64 is outside the model: it never
    makes a number [NaN] and never makes a non-negative value negative, but
    it takes a value beyond the binary64 range to an infinity and a value
    too small for it to zero, so only whether a value is [NaN], its sign,
    and an exact zero are read off this model. *)
Inductive number : Type :=
| NaN
| Infinity (negative : bool)
| Finite (q : Q).

Definition isNaN (n : number) : bool :=
  match n with NaN => true | _ => false end.

Definition is_digit (c : N) : bool := ((48 <=? c) && (c <=? 57))%N.

(** Longest prefix of decimal digits, and the rest. *)
Fixpoint take_digits (s : jsstring) : jsstring * jsstring :=
  match s with
  | c :: r =>
      if is_digit c then let '(ds, rest) := take_digits r in (c :: ds, rest)
      else ([], s)
  | [] => ([], [])
  end.

(** Mathematical value of a run of decimal digits. *)
Definition digits_value (ds : jsstring) : N :=
  fold_left (λ acc d, 10 * acc + (d - 48))%N ds 0%N.

(** An optional sign: [true] for [-]. *)
Definition parse_sign (s : jsstring) : bool * jsstring :=
  match s with
  | c :: r =>
      if (c =? 45)%N then (true, r)
      else if (c =? 43)%N then (false, r)
      else (false, s)
  | [] => (false, [])
  end.

Fixpoint strip_prefix (p s : jsstring) : option jsstring :=
  match p, s with
  | [], _ => Some s
  | a :: p', b :: s' => if (a =? b)%N then strip_prefix p' s' else None
  | _ :: _, [] => None
  end.

(** ExponentPart, when one starts here; an indicator that no digit follows
    is not part of the literal. *)
Definition parse_exponent (s : jsstring) : Z :=
  match s with
  | c :: r =>
      if ((c =? 101) || (c =? 69))%N then
        let '(neg, r') := parse_sign r in
        let '(ds, _) := take_digits r' in
        match ds with
        | [] => 0%Z
        | _ :: _ =>
            if neg then (- Z.of_N (digits_value ds))%Z
            else Z.of_N (digits_value ds)
        end
      else 0%Z
  | [] => 0%Z
  end.

(** [parseFloat] (ECMA-262, 19.2.4): leading white space is dropped, the
    longest prefix that is a StrDecimalLiteral is read, and [NaN] is the
    answer when there is none. *)
Definition parseFloat (s : jsstring) : number :=
  let '(neg, s1) := parse_sign (trimStart s) in
  match strip_prefix (js "Infinity") s1 with
  | Some _ => Infinity neg
  | None =>
      let '(ip, s2) := take_digits s1 in
      let '(fp, s3) :=
        match s2 with
        | c :: r => if (c =? 46)%N then take_digits r else ([], s2)
        | [] => ([], [])
        end in
      match ip ++ fp with
      | [] => NaN
      | _ :: _ =>
          let mant := inject_Z (Z.of_N (digits_value (ip ++ fp))) in
          let e := (parse_exponent s3 - Z.of_nat (length fp))%Z in
          let v := (mant * Qpower 10 e)%Q in
          Finite (Qred (if neg then - v else v))
      end
  end.

(** Values that occur in the request object. *)
Inductive jsval : Type :=
| VNull
| VBool (b : bool)
| VNum (n : number)
| VStr (s : jsstring).

(** A plain object with string keys.  [JSON.stringify] output is kept as the
    document it denotes, that is, as what [JSON.parse] returns on it. *)
Abbreviation document := (gmap string jsval).

(** [JSON.stringify] writes non-finite numbers as [null]. *)
Definition json_value (v : jsval) : jsval :=
  match v with
  | VNum NaN | VNum (Infinity _) => VNull
  | _ => v
  end.

Definition JSON_stringify (o : document) : document := json_value <$> o.

(** Completion of a call that may throw. *)
Inductive completion (A : Type) : Type :=
| Normal (a : A)
| Throw (error : string).
Arguments Normal {A} a.
Arguments Throw {A} error.

(** The part of the browser the pages touch. *)
Record Browser : Type := mkBrowser {
  localStorage : gmap string document;
  storage_writable : bool;   (* [setItem] throws when the origin's storage refuses the write *)
  history : list string;     (* paths pushed on the router, latest first *)
  console : list string
}.

Definition setItem (key : string) (value : document) (br : Browser)
  : completion Browser :=
  if storage_writable br then
    Normal (mkBrowser (<[key := value]> (localStorage br))
                      (storage_writable br) (history br) (console br))
  else Throw "QuotaExceededError".

Definition router_push (path : string) (br : Browser) : Browser :=
  mkBrowser (localStorage br) (storage_writable br)
            (path :: history br) (console br).

Definition console_error (msg : string) (br : Browser) : Browser :=
  mkBrowser (localStorage br) (storage_writable br)
            (history br) (msg :: console br).

End JS.

(** * The input form: [app/page.tsx] *)

Module Home.
Import JS.

Definition EXAMPLE_DATA : gmap string jsstring :=
  <["idea" := js "AI-powered personal finance management app that helps consumers optimize savings and investments with automated recommendations"]>
  (<["industry" := js "FinTech"]>
  (<["geography" := js "European Union"]>
  (<["customer_type" := js "Consumer"]>
  (<["business_model" := js "SaaS"]>
  (<["price_assumption" := js "9.99"]>
  (<["notes" := js "Focus on GDPR compliance and multi-currency support. Target users aged 25-45 with disposable income."]>
   ∅)))))).

(** Component state: the three [useState] cells.  A handler runs on the
    state of the last render; React commits the updates of one discrete
    event (change, click, submit) before it dispatches the next. *)
Record State : Type := mkState {
  formData : gmap string jsstring;
  errors : gmap string jsstring;
  isLoading : bool
}.

Definition initial : State :=
  mkState
    (<["idea" := []]> (<["industry" := []]> (<["geography" := []]>
     (<["customer_type" := []]> (<["business_model" := []]>
     (<["price_assumption" := []]> (<["notes" := []]> ∅)))))))
    ∅ false.

(** [handleChange]: the computed key overwrites or adds the entry [name];
    the error of that field is dropped when one is showing. *)
Definition handleChange (name : string) (value : jsstring) (st : State) : State :=
  let fd := <[name := value]> (formData st) in
  if truthy_prop (errors st !! name)
  then mkState fd (delete name (errors st)) (isLoading st)
  else mkState fd (errors st) (isLoading st).

(** The inline handler of the free-text geography input. *)
Definition handleGeographyOther (value : jsstring) (st : State) : State :=
  mkState (<["geography" := value]> (formData st)) (errors st) (isLoading st).

(** The error object [validateForm] builds, one guarded assignment after
    the other.  A read [formData.idea] is the total lookup [fd !!! "idea"]:
    the seven declared keys are present in every state the page reaches, so
    the read never yields [undefined]. *)
Definition newErrors (fd : gmap string jsstring) : gmap string jsstring :=
  let e0 : gmap string jsstring := ∅ in
  let e1 := if negb (truthy (trim (fd !!! "idea")))
            then <["idea" := js "Startup idea is required"]> e0 else e0 in
  let e2 := if negb (truthy (trim (fd !!! "industry")))
            then <["industry" := js "Industry is required"]> e1 else e1 in
  let e3 := if negb (truthy (fd !!! "geography"))
            then <["geography" := js "Geography is required"]> e2 else e2 in
  let e4 := if negb (truthy (fd !!! "customer_type"))
            then <["customer_type" := js "Customer type is required"]> e3 else e3 in
  let e5 := if negb (truthy (fd !!! "business_model"))
            then <["business_model" := js "Business model is required"]> e4 else e4 in
  let e6 := if truthy (fd !!! "price_assumption")
               && isNaN (parseFloat (fd !!! "price_assumption"))
            then <["price_assumption" := js "Price assumption must be a valid number"]> e5
            else e5 in
  e6.

(** [validateForm]: stores the error object and answers whether it has no
    key. *)
Definition validateForm (st : State) : bool * State :=
  let ne := newErrors (formData st) in
  (bool_decide (size ne = 0), mkState (formData st) ne (isLoading st)).

(** The object literal [requestData] of [handleSubmit]: the spread of the
    form data, then [price_assumption], then [debug]. *)
Definition requestData (fd : gmap string jsstring) : document :=
  <["debug" := VBool false]>
  (<["price_assumption" :=
       if truthy (fd !!! "price_assumption")
       then VNum (parseFloat (fd !!! "price_assumption"))
       else VNull]>
   (VStr <$> fd)).

Definition setIsLoading (b : bool) (st : State) : State :=
  mkState (formData st) (errors st) b.

(** [handleSubmit].  The closure reads the [formData] of the render that
    created it, which [validateForm] does not change. *)
Definition handleSubmit (st : State) (br : Browser) : State * Browser :=
  let '(ok, st1) := validateForm st in
  if negb ok then (st1, br)
  else
    let st2 := setIsLoading true st1 in
    match setItem "atlas_request" (JSON_stringify (requestData (formData st))) br with
    | Normal br1 => (st2, router_push "/report" br1)
    | Throw _ =>
        (setIsLoading false st2, console_error "Error storing request:" br)
    end.

Definition handleTryExample (st : State) : State :=
  mkState EXAMPLE_DATA ∅ (isLoading st).

(** The events of the page and the state they lead to. *)
Inductive event : Type :=
| Change (name : string) (value : jsstring)
| ChangeGeographyOther (value : jsstring)
| TryExample
| Submit.

Definition handle (ev : event) (c : State * Browser) : State * Browser :=
  match ev with
  | Change name value => (handleChange name value c.1, c.2)
  | ChangeGeographyOther value => (handleGeographyOther value c.1, c.2)
  | TryExample => (handleTryExample c.1, c.2)
  | Submit => handleSubmit c.1 c.2
  end.

(** States the page can be in: the first render, then any run of events. *)
Inductive reachable : State * Browser → Prop :=
| reachable_initial br : reachable (initial, br)
| reachable_step ev c : reachable c → reachable (handle ev c).

End Home.

(** * The report page: [app/report/page.tsx] *)

Module Report.
Import JS.

(** ** The [AnalyzeResponse] interface

    Every [number] is a rational here; a field the interface marks with [?]
    is an [option]. *)

Module Estimate.
Record t : Type := mk {
  min : Q;
  base : Q;
  max : Q;
  assumptions : list jsstring
}.
End Estimate.

Module Market.
Record t : Type := mk {
  tam : Estimate.t;
  tam_method : option jsstring;   (* [tam.method?] *)
  sam : Estimate.t;
  som : Estimate.t
}.
End Market.

Module Competitor.
Record t : Type := mk {
  name : jsstring;
  positioning : jsstring;
  pricing : jsstring;
  geography : jsstring;
  differentiator : jsstring;
  source_url : jsstring
}.
End Competitor.

Module Risks.
Record t : Type := mk {
  market : list jsstring;
  competition : list jsstring;
  regulatory : list jsstring;
  distribution : list jsstring
}.
End Risks.

Module Source.
Record t : Type := mk {
  title : jsstring;
  url : jsstring;
  excerpt : jsstring
}.
End Source.

Module ValidationTest.
Record t : Type := mk {
  test : jsstring;
  method : jsstring;
  success_threshold : jsstring
}.
End ValidationTest.

Module Scenario.
Record t : Type := mk {
  name : jsstring;
  market : Market.t
}.
End Scenario.

Module Scenarios.
Record t : Type := mk {
  bear : option Scenario.t;
  base : option Scenario.t;
  bull : option Scenario.t
}.
End Scenarios.

Module Sensitivity.
Record t : Type := mk {
  assumption_name : jsstring;
  base_som : Q;
  impact_minus_30pct : Q;
  impact_plus_30pct : Q;
  impact_magnitude : Q
}.
End Sensitivity.

Module LedgerEntry.
Record t : Type := mk {
  id : jsstring;
  claim_text : jsstring;
  claim_type : jsstring;
  value : option Q;
  unit : option jsstring;
  source_url : jsstring;
  excerpt : jsstring;
  retrieved_at : jsstring;
  credibility_score : jsstring;
  claim_confidence : jsstring
}.
End LedgerEntry.

Inductive Verdict : Type := GO | NO_GO | CONDITIONAL.

Record AnalyzeResponse : Type := mkResponse {
  verdict : Verdict;
  confidence_score : Q;
  executive_summary : list jsstring;
  market : Market.t;
  competitors : list Competitor.t;
  risks : Risks.t;
  assumptions : list jsstring;
  disconfirming_evidence : list jsstring;
  sources : list Source.t;
  key_unknowns : list jsstring;
  next_7_days_tests : list ValidationTest.t;
  scenarios : Scenarios.t;
  sensitivity_analysis : list Sensitivity.t;
  evidence_ledger : option (list LedgerEntry.t)
}.

(** ** Component state *)

Record State : Type := mkState {
  data : option AnalyzeResponse;
  requestData : option document;
  isLoading : bool;
  error : option jsstring;
  isDownloading : bool;
  pdfAvailable : bool;
  pdfError : option jsstring;
  debugMode : bool;
  showRawJson : bool;
  copiedSummary : bool
}.

(** The [useState] initial values. *)
Definition initial : State :=
  mkState None None true None false true None false false false.

(** ToBoolean on a value of the request document; zero and [NaN] are the
    falsy numbers. *)
Definition truthy_value (o : option jsval) : bool :=
  match o with
  | None | Some VNull => false
  | Some (VBool b) => b
  | Some (VNum NaN) => false
  | Some (VNum (Infinity _)) => true
  | Some (VNum (Finite q)) => negb (Qeq_bool q 0)
  | Some (VStr s) => truthy s
  end.

(** What [runAnalysis] stores once the response has arrived: the parsed
    request, the response, [parsedRequest.debug || false], and the end of
    loading. *)
Definition analysisLoaded (parsedRequest : document) (result : AnalyzeResponse)
    (st : State) : State :=
  mkState (Some result) (Some parsedRequest) false (error st)
          (isDownloading st) (pdfAvailable st) (pdfError st)
          (truthy_value (parsedRequest !! "debug"))
          (showRawJson st) (copiedSummary st).

(** The debug check box. *)
Definition setDebugMode (checked : bool) (st : State) : State :=
  mkState (data st) (requestData st) (isLoading st) (error st)
          (isDownloading st) (pdfAvailable st) (pdfError st)
          checked (showRawJson st) (copiedSummary st).

(** ** What the component renders

    The element tree is kept up to its sections, in document order; inside
    a section, the values the JSX interpolates. *)

Record ScenarioRow : Type := mkScenarioRow {
  row_label : string;
  row_tam : Q;
  row_sam : Q;
  row_som : Q
}.

Record CompetitorRow : Type := mkCompetitorRow {
  row_cells : list jsstring;   (* name, positioning, pricing, geography, differentiator *)
  row_link_href : jsstring     (* the anchor of the Source column *)
}.

Record SourceCard : Type := mkSourceCard {
  card_title : jsstring;
  card_badge : option jsstring;
  card_excerpt : option jsstring;
  card_url : jsstring
}.

Inductive section : Type :=
| Header (pdf_button unavailable_badge debug_checked : bool)
| IdeaTitle (idea : jsval)
| VerdictAndConfidence (v : Verdict) (score : Q)
| ExecutiveSummary (items : list jsstring)
| MarketCards (m : Market.t)
| ScenariosSection (rows : list ScenarioRow)
| CompetitorsSection (rows : list CompetitorRow)
| RisksSection (groups : list (string * list jsstring))
| AssumptionsSection (items : list jsstring)
| DisconfirmingEvidenceSection (items : list jsstring)
| SourcesSection (cards : list SourceCard)
| KeyUnknownsSection (items : list jsstring)
| Next7DaysTestsSection (tests : list ValidationTest.t)
| RawJsonSection (expanded : bool)
| EvidenceLedgerSection (cards : list LedgerEntry.t)
| ActionButtons.

Inductive view : Type :=
| LoadingView
| ErrorView (message : jsstring)
| MemoView (sections : list section).

(** [cond && <jsx>] *)
Definition when {A : Type} (cond : bool) (x : A) : list A :=
  if cond then [x] else [].

Definition non_empty {A : Type} (l : list A) : bool :=
  match l with [] => false | _ :: _ => true end.

(** ToBoolean on an optional object: an object is truthy, [undefined] is
    not. *)
Definition present {A : Type} (o : option A) : bool :=
  match o with Some _ => true | None => false end.

Definition scenario_row (label : string) (s : Scenario.t) : ScenarioRow :=
  let m := Scenario.market s in
  mkScenarioRow label (Estimate.base (Market.tam m))
                (Estimate.base (Market.sam m)) (Estimate.base (Market.som m)).

Definition scenario_rows (s : Scenarios.t) : list ScenarioRow :=
  from_option (λ x, [scenario_row "Bear" x]) [] (Scenarios.bear s)
  ++ from_option (λ x, [scenario_row "Base" x]) [] (Scenarios.base s)
  ++ from_option (λ x, [scenario_row "Bull" x]) [] (Scenarios.bull s).

Definition competitor_row (comp : Competitor.t) : CompetitorRow :=
  mkCompetitorRow
    [Competitor.name comp; Competitor.positioning comp; Competitor.pricing comp;
     Competitor.geography comp; Competitor.differentiator comp]
    (Competitor.source_url comp).

Definition risk_groups (r : Risks.t) : list (string * list jsstring) :=
  when (non_empty (Risks.market r)) ("Market Risks", Risks.market r)
  ++ when (non_empty (Risks.competition r)) ("Competition Risks", Risks.competition r)
  ++ when (non_empty (Risks.regulatory r)) ("Regulatory Risks", Risks.regulatory r)
  ++ when (non_empty (Risks.distribution r)) ("Distribution Risks", Risks.distribution r).

(** The credibility badge of a source: the first ledger entry of type
    [source] with the same URL, shown in debug mode only. *)
Definition source_card (d : AnalyzeResponse) (debug : bool) (s : Source.t)
  : SourceCard :=
  let sourceClaim :=
    ledger ← evidence_ledger d;
    List.find (λ claim,
         bool_decide (LedgerEntry.source_url claim = Source.url s)
         && bool_decide (LedgerEntry.claim_type claim = js "source")) ledger in
  let credibility := LedgerEntry.credibility_score <$> sourceClaim in
  mkSourceCard (Source.title s)
    (if debug && truthy_prop credibility then credibility else None)
    (if truthy (Source.excerpt s) then Some (Source.excerpt s) else None)
    (Source.url s).

Definition debug_sections (d : AnalyzeResponse) (st : State) : list section :=
  RawJsonSection (showRawJson st)
  :: match evidence_ledger d with
     | Some ledger => when (non_empty ledger) (EvidenceLedgerSection ledger)
     | None => []
     end.

Definition memo (d : AnalyzeResponse) (st : State) : list section :=
  [Header (pdfAvailable st)
          (truthy_prop (pdfError st) && negb (pdfAvailable st))
          (debugMode st)]
  ++ match requestData st with
     | Some r => if truthy_value (r !! "idea")
                 then from_option (λ v, [IdeaTitle v]) [] (r !! "idea") else []
     | None => []
     end
  ++ [VerdictAndConfidence (verdict d) (confidence_score d);
      ExecutiveSummary (executive_summary d);
      MarketCards (market d)]
  ++ (let s := scenarios d in
      when (present (Scenarios.bear s) || present (Scenarios.base s)
            || present (Scenarios.bull s))
           (ScenariosSection (scenario_rows s)))
  ++ when (non_empty (competitors d))
          (CompetitorsSection (competitor_row <$> competitors d))
  ++ [RisksSection (risk_groups (risks d))]
  ++ when (non_empty (assumptions d)) (AssumptionsSection (assumptions d))
  ++ when (non_empty (disconfirming_evidence d))
          (DisconfirmingEvidenceSection (disconfirming_evidence d))
  ++ [SourcesSection (source_card d (debugMode st) <$> sources d)]
  ++ when (non_empty (key_unknowns d)) (KeyUnknownsSection (key_unknowns d))
  ++ when (non_empty (next_7_days_tests d))
          (Next7DaysTestsSection (next_7_days_tests d))
  ++ (if debugMode st then debug_sections d st else [])
  ++ [ActionButtons].

(** The three returns of [ReportPage]: loading, [error || !data], memo. *)
Definition render (st : State) : view :=
  if isLoading st then LoadingView
  else
    let message :=
      if truthy_prop (error st) then default [] (error st)
      else js "Unknown error occurred" in
    match data st with
    | Some d => if truthy_prop (error st) then ErrorView message
                else MemoView (memo d st)
    | None => ErrorView message
    end.

(** Reading the rendered tree: the Evidence Ledger sections, the scenario
    tables, and the anchors of the competitor rows, in document order. *)
Definition sections_of (v : view) : list section :=
  match v with MemoView l => l | _ => [] end.

Definition ledger_of (s : section) : list (list LedgerEntry.t) :=
  match s with EvidenceLedgerSection cards => [cards] | _ => [] end.

Definition scenario_table_of (s : section) : list (list ScenarioRow) :=
  match s with ScenariosSection rows => [rows] | _ => [] end.


Definition ledger_sections (v : view) : list (list LedgerEntry.t) :=
  flat_map ledger_of (sections_of v).

Definition scenario_tables (v : view) : list (list ScenarioRow) :=
  flat_map scenario_table_of (sections_of v).


End Report.

(** * The decision core

    The back end that answers [POST /analyze] is not among the sources; the
    pages only consume its response.  The stages below follow sections 3,
    4 and 6 of the specification, and produce the [AnalyzeResponse] the
    report page declares. *)

Module Core.
Import JS.

(** The stages that can reject their input run in the error monad of
    [completion]. *)
#[export] Instance completion_ret : MRet completion := λ A a, Normal a.
#[export] Instance completion_bind : MBind completion := λ A B k c,
  match c with Normal a => k a | Throw e => Throw e end.

Fixpoint collect {A B : Type} (f : A → completion B) (l : list A)
  : completion (list B) :=
  match l with
  | [] => Normal []
  | a :: l' => b ← f a; bs ← collect f l'; Normal (b :: bs)
  end.

Module RangeEstimate.
(** Modelled from the spec: the Range Estimate of section 3 (the core's own
    record, with its derivation method and evidence references; the back
    end is missing from the sources). *)
Record t : Type := mk {
  min : Q;
  base : Q;
  max : Q;
  method : jsstring;
  assumptions : list jsstring;
  evidence_refs : list jsstring
}.
End RangeEstimate.

Module MarketModel.
(** Modelled from the spec: the Market Model of section 3, a funnel of three
    Range Estimates (the back end is missing from the sources). *)
Record t : Type := mk {
  tam : RangeEstimate.t;
  sam : RangeEstimate.t;
  som : RangeEstimate.t
}.
End MarketModel.

(** Modelled from the spec: the scope descriptor of section 4.2 (the back
    end's request types are missing from the sources). *)
Record Scope : Type := mkScope {
  industry : jsstring;
  geography : jsstring;
  customer_type : jsstring;
  business_model : jsstring;
  price_assumption : option Q
}.

(** Modelled from the spec: what the Market Model Builder, missing from the
    sources, reads (section 4.2): the ledger, the scope, and the two funnel
    assumption ranges. *)
Record BuilderInput : Type := mkBuilderInput {
  ledger : list Report.LedgerEntry.t;
  scope : Scope;
  addressable_share : RangeEstimate.t;
  obtainable_share : RangeEstimate.t
}.

(** Modelled from the spec: the validation step of section 4.2, which
    rejects negative inputs (the Builder is missing from the sources). *)
Definition non_negative (r : RangeEstimate.t) : bool :=
  Qle_bool 0 (RangeEstimate.min r) && Qle_bool 0 (RangeEstimate.base r)
  && Qle_bool 0 (RangeEstimate.max r).

(** Modelled from the spec: the same validation on the optional price of
    the scope, a non-negative number (section 6); the back end's validation
    is missing from the sources. *)
Definition non_negative_price (p : option Q) : bool :=
  match p with Some q => Qle_bool 0 q | None => true end.

(** Modelled from the spec: what the same validation step accepts as a
    funnel assumption range (the Builder is missing from the sources).  The
    two ranges are shares, "addressable-market share of TAM" and
    "obtainable-market share of SAM" (section 4.2): a share is non-negative
    and takes at most the whole of the market it is a share of, which is
    what the invariant of every Market Model (section 3) needs. *)
Definition is_share (r : RangeEstimate.t) : bool :=
  non_negative r
  && Qle_bool (RangeEstimate.min r) 1 && Qle_bool (RangeEstimate.base r) 1
  && Qle_bool (RangeEstimate.max r) 1.

(** Modelled from the spec: interval multiplication, component-wise
    ([min×min], [base×base], [max×max]) of section 4.2 (the Builder is
    missing from the sources). *)
Definition times (r share : RangeEstimate.t) : RangeEstimate.t :=
  RangeEstimate.mk
    (RangeEstimate.min r * RangeEstimate.min share)
    (RangeEstimate.base r * RangeEstimate.base share)
    (RangeEstimate.max r * RangeEstimate.max share)
    (RangeEstimate.method share)
    (RangeEstimate.assumptions r ++ RangeEstimate.assumptions share)
    (RangeEstimate.evidence_refs r ++ RangeEstimate.evidence_refs share).

(** Modelled from the spec: a tracked assumption of the Sensitivity
    Analyzer, missing from the sources (section 4.4): its name and how
    scaling it changes the Builder's input, all other assumptions held
    fixed. *)
Record Tracked : Type := mkTracked {
  tracked_name : jsstring;
  perturb : Q → BuilderInput → BuilderInput
}.

(** Modelled from the spec: the impact magnitude of a Sensitivity Result
    (section 3; the Sensitivity Analyzer is missing from the sources). *)
Definition magnitude (base_som minus plus : Q) : Q :=
  Qmax (Qabs (base_som - minus)) (Qabs (base_som - plus)).

(** Modelled from the spec: the ordering of section 4.4, by descending
    impact magnitude, ties in declaration order (the Sensitivity Analyzer is
    missing from the sources).  An entry is put in front of the first entry
    that does not exceed it. *)
Fixpoint insert_by_magnitude (r : Report.Sensitivity.t)
    (l : list Report.Sensitivity.t) : list Report.Sensitivity.t :=
  match l with
  | [] => [r]
  | x :: l' =>
      if Qle_bool (Report.Sensitivity.impact_magnitude x)
                  (Report.Sensitivity.impact_magnitude r)
      then r :: x :: l'
      else x :: insert_by_magnitude r l'
  end.

(** Modelled from the spec: the sort of section 4.4 (the back end's
    Sensitivity Analyzer is missing from the sources), an insertion sort
    from the last declared entry to the first. *)
Fixpoint sort_by_magnitude (l : list Report.Sensitivity.t)
  : list Report.Sensitivity.t :=
  match l with
  | [] => []
  | r :: l' => insert_by_magnitude r (sort_by_magnitude l')
  end.

(** Modelled from the spec: the clamp of the Confidence Scorer (section
    4.6; the scorer is missing from the sources). *)
Definition clamp (lo hi x : Z) : Z := Z.max lo (Z.min hi x).

(** Modelled from the spec: what the collaborators, missing from the
    sources, hand to the core for one request (sections 1 and 6). *)
Record Collected : Type := mkCollected {
  claims : list Report.LedgerEntry.t;
  sources : list Report.Source.t;
  competitors : list Report.Competitor.t;
  risks : Report.Risks.t;
  disconfirming_evidence : list jsstring
}.

(** Modelled from the spec: the text the content-generation collaborator,
    missing from the sources, derives from a Decision (section 6). *)
Record Content : Type := mkContent {
  executive_summary : list jsstring;
  key_unknowns : list jsstring;
  next_7_days_tests : list Report.ValidationTest.t
}.

(** Modelled from the spec: the request of section 6, as the back end
    (missing from the sources) receives it. *)
Record Request : Type := mkRequest {
  idea : jsstring;
  request_scope : Scope;
  notes : option jsstring;
  debug : bool
}.

Section Pipeline.

(** What the specification leaves open is a parameter of the pipeline:
    the credibility-weighted aggregation of market-size claims into a TAM
    range, the bear and bull multiplier sets, the raw confidence formula,
    the policy thresholds of the Decision Engine, and content
    generation. *)
Variable aggregate_tam : list Report.LedgerEntry.t → Scope → RangeEstimate.t.
Variable bear_multipliers bull_multipliers : BuilderInput → BuilderInput.
Variable raw_confidence : Collected → MarketModel.t → Z.
Variable policy : MarketModel.t → Z → Report.Risks.t → nat → Report.Verdict.
Variable generate_content : Report.Verdict → Z → MarketModel.t → Content.

(** Modelled from the spec: the Market Model Builder of section 4.2, which
    is missing from the sources.  [sam = tam × addressable_share] and
    [som = sam × obtainable_share]; a negative input, or a funnel
    assumption range that is not a share, is a [ValidationError]
    (section 7: malformed scope or assumption input). *)
Definition build (i : BuilderInput) : completion MarketModel.t :=
  let tam := aggregate_tam (ledger i) (scope i) in
  if non_negative tam && is_share (addressable_share i)
     && is_share (obtainable_share i)
     && non_negative_price (price_assumption (scope i))
  then
    let sam := times tam (addressable_share i) in
    let som := times sam (obtainable_share i) in
    Normal (MarketModel.mk tam sam som)
  else Throw "ValidationError".

(** Modelled from the spec: the response form of a Range Estimate (section
    6: [min, base, max, assumptions]); the API layer is missing from the
    sources. *)
Definition estimate (r : RangeEstimate.t) : Report.Estimate.t :=
  Report.Estimate.mk (RangeEstimate.min r) (RangeEstimate.base r)
                     (RangeEstimate.max r) (RangeEstimate.assumptions r).

(** Modelled from the spec: the response form of a Market Model (section
    6: [market.{tam,sam,som}], with [method] on [tam]); the API layer is
    missing from the sources. *)
Definition market_response (m : MarketModel.t) : Report.Market.t :=
  Report.Market.mk (estimate (MarketModel.tam m))
                   (Some (RangeEstimate.method (MarketModel.tam m)))
                   (estimate (MarketModel.sam m))
                   (estimate (MarketModel.som m)).

(** Modelled from the spec: one Scenario (section 3), the Builder run again
    on the scenario's input; the Scenario Generator is missing from the
    sources. *)
Definition scenario (name : string) (i : BuilderInput)
  : completion Report.Scenario.t :=
  m ← build i;
  Normal (Report.Scenario.mk (js name) (market_response m)).

(** Modelled from the spec: the Scenario Generator of section 4.3, missing
    from the sources: three runs of the Builder, bear and bull under their
    multiplier sets, base unmodified. *)
Definition generate_scenarios (i : BuilderInput)
  : completion Report.Scenarios.t :=
  bear ← scenario "bear" (bear_multipliers i);
  base ← scenario "base" i;
  bull ← scenario "bull" (bull_multipliers i);
  Normal (Report.Scenarios.mk (Some bear) (Some base) (Some bull)).

(** Modelled from the spec: [som.base] recomputed via the Builder (section
    4.4; the Sensitivity Analyzer is missing from the sources). *)
Definition som_base (i : BuilderInput) : completion Q :=
  m ← build i; Normal (RangeEstimate.base (MarketModel.som m)).

(** Modelled from the spec: one Sensitivity Result (sections 3 and 4.4; the
    Sensitivity Analyzer is missing from the sources).  The assumption is
    scaled by 0.7 and by 1.3, all others held fixed. *)
Definition sensitivity_result (i : BuilderInput) (a : Tracked)
  : completion Report.Sensitivity.t :=
  base_som ← som_base i;
  minus ← som_base (perturb a (7 # 10) i);
  plus ← som_base (perturb a (13 # 10) i);
  Normal (Report.Sensitivity.mk (tracked_name a) base_som minus plus
                                (magnitude base_som minus plus)).

(** Modelled from the spec: the Sensitivity Analyzer of section 4.4, missing
    from the sources: one result per tracked assumption, in declaration
    order, then sorted. *)
Definition analyze_sensitivity (i : BuilderInput) (tracked : list Tracked)
  : completion (list Report.Sensitivity.t) :=
  results ← collect (sensitivity_result i) tracked;
  Normal (sort_by_magnitude results).

(** Modelled from the spec: the Confidence Scorer of section 4.6, missing
    from the sources; its output is clamped to [0, 100]. *)
Definition confidence (c : Collected) (m : MarketModel.t) : Z :=
  clamp 0 100 (raw_confidence c m).

(** Modelled from the spec: a competitor entry that carries a
    [source_url] (section 6; the competitor collaborator and the response
    assembly are missing from the sources). *)
Definition sourced (e : Report.Competitor.t) : bool :=
  truthy (Report.Competitor.source_url e).

(** Modelled from the spec: one analysis request (sections 2 and 6), for
    the back end missing from the sources.  The ledger is part of the
    response when [debug] was requested.  Of what the competitor
    collaborator hands over, the entries that carry a [source_url] enter
    the response (section 6: "each entry must carry a source_url"; section
    1: no assertion that cannot be traced back to a source); an entry
    without one is left out. *)
Definition analyze (req : Request) (c : Collected)
    (addressable obtainable : RangeEstimate.t) (tracked : list Tracked)
  : completion Report.AnalyzeResponse :=
  let i := mkBuilderInput (claims c) (request_scope req) addressable obtainable in
  m ← build i;
  scenarios ← generate_scenarios i;
  sensitivity ← analyze_sensitivity i tracked;
  let score := confidence c m in
  let entries := List.filter sourced (competitors c) in
  let verdict := policy m score (risks c) (length entries) in
  let content := generate_content verdict score m in
  Normal (Report.mkResponse
            verdict (inject_Z score) (executive_summary content)
            (market_response m) entries (risks c)
            (RangeEstimate.assumptions (MarketModel.som m))
            (disconfirming_evidence c) (sources c)
            (key_unknowns content) (next_7_days_tests content)
            scenarios sensitivity
            (if debug req then Some (claims c) else None)).

End Pipeline.

End Core.

(** * Properties the specification states, as predicates *)

Module Claims.
Import JS.

(** A field "contains non-whitespace text". *)
Definition has_text (s : jsstring) : Prop :=
  Exists (λ c, is_whitespace c = false) s.

(** A well-formed form input, as the specification words it: idea and
    industry contain non-whitespace text; geography, customer type and
    business model are non-empty; the price is empty or parses as a
    number. *)
Definition well_formed (fd : gmap string jsstring) : Prop :=
  has_text (fd !!! "idea")
  ∧ has_text (fd !!! "industry")
  ∧ fd !!! "geography" ≠ []
  ∧ fd !!! "customer_type" ≠ []
  ∧ fd !!! "business_model" ≠ []
  ∧ (fd !!! "price_assumption" = [] ∨ parseFloat (fd !!! "price_assumption") ≠ NaN).

(** Each offending field, and no other, has an entry in the error
    object. *)
Definition per_field_errors (fd errs : gmap string jsstring) : Prop :=
  (is_Some (errs !! "idea") ↔ ¬ has_text (fd !!! "idea"))
  ∧ (is_Some (errs !! "industry") ↔ ¬ has_text (fd !!! "industry"))
  ∧ (is_Some (errs !! "geography") ↔ fd !!! "geography" = [])
  ∧ (is_Some (errs !! "customer_type") ↔ fd !!! "customer_type" = [])
  ∧ (is_Some (errs !! "business_model") ↔ fd !!! "business_model" = [])
  ∧ (is_Some (errs !! "price_assumption") ↔
       fd !!! "price_assumption" ≠ [] ∧ parseFloat (fd !!! "price_assumption") = NaN).

(** [handleSubmit] stores the request and navigates to the report page. *)
Definition submits (st : Home.State) (br : Browser) : Prop :=
  let br' := (Home.handleSubmit st br).2 in
  localStorage br' !! "atlas_request"
    = Some (JSON_stringify (Home.requestData (Home.formData st)))
  ∧ history br' = "/report" :: history br.

(** The stored price is [null] or a non-negative number. *)
Definition null_or_non_negative (v : option jsval) : Prop :=
  v = Some VNull ∨ ∃ q, v = Some (VNum (Finite q)) ∧ (0 <= q)%Q.



(** Descending impact magnitude. *)
Definition descending (a b : Report.Sensitivity.t) : Prop :=
  (Report.Sensitivity.impact_magnitude b <= Report.Sensitivity.impact_magnitude a)%Q.

(** The entries whose impact magnitude is [m], in list order. *)
Definition tied (m : Q) (l : list Report.Sensitivity.t) : list Report.Sensitivity.t :=
  List.filter (λ e, Qeq_bool (Report.Sensitivity.impact_magnitude e) m) l.

(** The magnitude recorded in an entry is the one its three values give. *)
Definition magnitude_consistent (e : Report.Sensitivity.t) : Prop :=
  Report.Sensitivity.impact_magnitude e
  = Qmax (Qabs (Report.Sensitivity.base_som e - Report.Sensitivity.impact_minus_30pct e))
         (Qabs (Report.Sensitivity.base_som e - Report.Sensitivity.impact_plus_30pct e)).

End Claims.

(** * Concrete inputs *)

Module Samples.
Import JS.

(** A valid form: the example of the page. *)
Definition filled : Home.State := Home.handleTryExample Home.initial.

(** The same form after the user typed a negative price. *)
Definition negative_price : Home.State :=
  Home.handleChange "price_assumption" (js "-5") filled.

(** A form in which an error is showing. *)
Definition rejected : Home.State := (Home.validateForm Home.initial).2.

Definition browser : Browser := mkBrowser ∅ true [] [].

(** A browser whose storage refuses writes. *)
Definition full_browser : Browser := mkBrowser ∅ false [] [].

(** A declared funnel share. *)
Definition range (lo mid hi : Q) : Core.RangeEstimate.t :=
  Core.RangeEstimate.mk lo mid hi (js "declared default") [js "declared share"] [].

(** Shares of a tenth to a third, and a range of twice the market, which is
    no share. *)
Definition addressable : Core.RangeEstimate.t := range (1 # 10) (1 # 5) (3 # 10).
Definition obtainable : Core.RangeEstimate.t := range (1 # 20) (1 # 10) (1 # 5).
Definition oversized : Core.RangeEstimate.t := range 2 2 2.

(** Three market-size claims aggregated to a TAM range. *)
Definition aggregate_tam (_ : list Report.LedgerEntry.t) (_ : Core.Scope)
  : Core.RangeEstimate.t :=
  Core.RangeEstimate.mk 900 1000 1200 (js "credibility-weighted mean")
                        [] [js "c1"; js "c2"; js "c3"].

Definition scale_shares (f : Q) (i : Core.BuilderInput) : Core.BuilderInput :=
  Core.mkBuilderInput (Core.ledger i) (Core.scope i)
    (Core.times (Core.addressable_share i) (range f f f))
    (Core.times (Core.obtainable_share i) (range f f f)).

Definition scale_addressable (f : Q) (i : Core.BuilderInput) : Core.BuilderInput :=
  Core.mkBuilderInput (Core.ledger i) (Core.scope i)
    (Core.times (Core.addressable_share i) (range f f f))
    (Core.obtainable_share i).

Definition scale_obtainable (f : Q) (i : Core.BuilderInput) : Core.BuilderInput :=
  Core.mkBuilderInput (Core.ledger i) (Core.scope i)
    (Core.addressable_share i)
    (Core.times (Core.obtainable_share i) (range f f f)).

Definition scale_price (f : Q) (i : Core.BuilderInput) : Core.BuilderInput :=
  let s := Core.scope i in
  Core.mkBuilderInput (Core.ledger i)
    (Core.mkScope (Core.industry s) (Core.geography s) (Core.customer_type s)
                  (Core.business_model s)
                  ((λ p, p * f)%Q <$> Core.price_assumption s))
    (Core.addressable_share i) (Core.obtainable_share i).

Definition tracked : list Core.Tracked :=
  [Core.mkTracked (js "price") scale_price;
   Core.mkTracked (js "addressable_share") scale_addressable;
   Core.mkTracked (js "obtainable_share") scale_obtainable].

Definition entry : Report.LedgerEntry.t :=
  Report.LedgerEntry.mk (js "c1") (js "Market worth 1000") (js "market_size")
    (Some 1000%Q) (Some (js "USD")) (js "https://example.org/report")
    (js "worth 1000") (js "2024-01-01T00:00:00Z") (js "high") (js "high").

Definition competitor : Report.Competitor.t :=
  Report.Competitor.mk (js "Acme") (js "budget") (js "5/month") (js "EU")
                       (js "price") (js "https://acme.example").

(** A competitor entry the collaborator could not source. *)
Definition unsourced : Report.Competitor.t :=
  Report.Competitor.mk (js "Rumour") (js "unknown") (js "unknown") (js "EU")
                       (js "unknown") [].

Definition collected : Core.Collected :=
  Core.mkCollected [entry]
    [Report.Source.mk (js "Report") (js "https://example.org/report") (js "worth 1000")]
    [competitor; unsourced; competitor]
    (Report.Risks.mk [js "small market"] [] [] [])
    [].

Definition request (debug : bool) : Core.Request :=
  Core.mkRequest (js "an idea")
    (Core.mkScope (js "FinTech") (js "European Union") (js "Consumer") (js "SaaS")
                  (Some (999 # 100)))
    None debug.

(** A pipeline instance: shares halved for bear and doubled for bull, a raw
    confidence of 250, three tracked assumptions. *)
Definition analyze (debug : bool) (addressable obtainable : Core.RangeEstimate.t)
  : completion Report.AnalyzeResponse :=
  Core.analyze aggregate_tam (scale_shares (1 # 2)) (scale_shares 2)
    (λ _ _, 250%Z) (λ _ _ _ _, Report.CONDITIONAL)
    (λ _ _ _, Core.mkContent [] [] [])
    (request debug) collected addressable obtainable tracked.

(** A response as the report page may receive it: two competitors, a
    ledger, no scenarios. *)
Definition response : Report.AnalyzeResponse :=
  Report.mkResponse Report.CONDITIONAL 50 []
    (Report.Market.mk (Report.Estimate.mk 900 1000 1200 []) None
                      (Report.Estimate.mk 90 200 360 [])
                      (Report.Estimate.mk 9 20 72 []))
    [competitor; competitor] (Report.Risks.mk [] [] [] []) [] [] [] [] []
    (Report.Scenarios.mk None None None) [] (Some [entry]).

(** The report page once the response to the example request has arrived,
    with the debug box then set as given. *)
Definition page (d : Report.AnalyzeResponse) (debugMode : bool) : Report.State :=
  Report.setDebugMode debugMode
    (Report.analysisLoaded (JSON_stringify (Home.requestData Home.EXAMPLE_DATA))
                           d Report.initial).

End Samples.

(** * What the input form renders, and runs of events *)

Module HomeView.
Import JS Home.

Definition GEOGRAPHY_OPTIONS : list jsstring :=
  js <$> ["North America"; "European Union"; "United Kingdom"; "Asia Pacific";
          "Latin America"; "Middle East & Africa"; "Global"; "Other"].

Definition CUSTOMER_TYPE_OPTIONS : list jsstring :=
  js <$> ["Consumer"; "SMB"; "Enterprise"; "Government"; "Mixed"].

Definition BUSINESS_MODEL_OPTIONS : list jsstring :=
  js <$> ["SaaS"; "Marketplace"; "Usage-based"; "Services"; "Hybrid"].

(** A control of the form: its [name], the [value] it shows, whether its
    border is red, and the error paragraph under it. *)
Record Control : Type := mkControl {
  control_name : string;
  control_value : jsstring;
  control_red : bool;
  control_error : option jsstring
}.

(** The form as rendered: the seven controls in document order, whether the
    free-text geography input is there, and the submit button. *)
Record view : Type := mkView {
  controls : list Control;
  geography_other : bool;
  submit_disabled : bool;
  submit_label : string
}.

(** A control with the [errors.x ? 'border-red-500' : ...] class and the
    [errors.x && <p>{errors.x}</p>] paragraph. *)
Definition validated_control (name : string) (st : State) : Control :=
  mkControl name (formData st !!! name)
            (truthy_prop (errors st !! name))
            (if truthy_prop (errors st !! name) then errors st !! name else None).

(** The notes textarea has neither. *)
Definition plain_control (name : string) (st : State) : Control :=
  mkControl name (formData st !!! name) false None.

Definition render (st : State) : view :=
  mkView
    [validated_control "idea" st; validated_control "industry" st;
     validated_control "geography" st; validated_control "customer_type" st;
     validated_control "business_model" st;
     validated_control "price_assumption" st; plain_control "notes" st]
    (bool_decide (formData st !!! "geography" = js "Other"))
    (isLoading st)
    (if isLoading st then "Analyzing..." else "Analyze Market Viability").

(** The error paragraphs on the page, each with the control it is under. *)
Definition shown_errors (v : view) : list (string * jsstring) :=
  omap (λ c, (λ msg, (control_name c, msg)) <$> control_error c) (controls v).

(** The fields [validateForm] checks. *)
Definition validated_fields : list string :=
  ["idea"; "industry"; "geography"; "customer_type"; "business_model";
   "price_assumption"].

(** The text, leading white space apart, starts with a minus sign. *)
Definition starts_with_minus (s : jsstring) : bool :=
  match trimStart s with c :: _ => (c =? 45)%N | [] => false end.

(** The text, leading white space apart, starts with a decimal digit. *)
Definition starts_with_digit (s : jsstring) : bool :=
  match trimStart s with c :: _ => is_digit c | [] => false end.

(** A run of events, first to last. *)
Definition run (evs : list event) (c : State * Browser) : State * Browser :=
  foldl (λ c ev, handle ev c) c evs.

End HomeView.

(** * The form's controls and the browser's constraint validation

    The form element has no [noValidate]: a click on the submit button, or
    Enter in a text field, raises the submit event, and so runs
    [handleSubmit], only when every control satisfies the constraints its
    attributes declare (HTML, form submission and constraint validation). *)

Module HomeForm.
Import JS Home HomeView.

(** The exponent of a valid floating-point number, to the end of the
    text: nothing, or [e] or [E], an optional sign, and digits. *)
Definition valid_exponent (s : jsstring) : bool :=
  match s with
  | [] => true
  | c :: r =>
      ((c =? 101) || (c =? 69))%N
      && let r' := match r with
                   | d :: r'' => if ((d =? 45) || (d =? 43))%N then r'' else r
                   | [] => []
                   end in
         let '(ds, rest) := take_digits r' in
         truthy ds && negb (truthy rest)
  end.

(** A valid floating-point number of HTML: an optional [-]; digits, or
    digits, a dot and digits, or a dot and digits; an optional exponent;
    nothing before or after. *)
Definition valid_floating_point_number (s : jsstring) : bool :=
  let s1 := match s with
            | c :: r => if (c =? 45)%N then r else s
            | [] => []
            end in
  let '(ip, s2) := take_digits s1 in
  match s2 with
  | c :: r =>
      if (c =? 46)%N
      then let '(fp, s3) := take_digits r in truthy fp && valid_exponent s3
      else truthy ip && valid_exponent s2
  | [] => truthy ip
  end.

(** The value of an [<input type="number">]: value sanitization replaces
    what is not a valid floating-point number by the empty string, both
    for what the user types and for the [value] React sets. *)
Definition sanitize_number (s : jsstring) : jsstring :=
  if valid_floating_point_number s then s else [].

(** The value of a [<select>] that React controls with [value]: the option
    with that value is selected when there is one, and the first option
    otherwise, which here is the placeholder with the empty value. *)
Definition select_value (options : list jsstring) (value : jsstring) : jsstring :=
  if bool_decide (value ∈ options) then value else [].

(** [required]: the control suffers from being missing when its value is
    the empty string (for a select, when the placeholder is selected). *)
Definition value_missing (value : jsstring) : bool := negb (truthy value).

(** [min="0"]: the control suffers from an underflow when its value is a
    number below 0.  On a valid floating-point number the number is the
    one [parseFloat] reads; the empty value is no number. *)
Definition range_underflow (value : jsstring) : bool :=
  match parseFloat value with
  | Finite q => negb (Qle_bool 0 q)
  | _ => false
  end.

(** [step="0.01"], with the step base [min]: the control suffers from a
    step mismatch when its number is not a whole number of hundredths. *)
Definition step_mismatch (value : jsstring) : bool :=
  match parseFloat value with
  | Finite q => negb (Qden (Qred (q * 100)) =? 1)%positive
  | _ => false
  end.

(** Every control of the form satisfies its constraints: [required] on
    idea, industry and the three selects; [type="number"], [min] and
    [step] on the price.  (A number control in which the user has typed
    what is no number has the empty value and suffers from bad input; that
    text is not part of the component's state, and it only cancels more
    submissions.) *)
Definition satisfies_constraints (st : State) : bool :=
  let fd := formData st in
  let price := sanitize_number (fd !!! "price_assumption") in
  negb (value_missing (fd !!! "idea"))
  && negb (value_missing (fd !!! "industry"))
  && negb (value_missing (select_value GEOGRAPHY_OPTIONS (fd !!! "geography")))
  && negb (value_missing (select_value CUSTOMER_TYPE_OPTIONS (fd !!! "customer_type")))
  && negb (value_missing (select_value BUSINESS_MODEL_OPTIONS (fd !!! "business_model")))
  && negb (range_underflow price)
  && negb (step_mismatch price).

(** The values a control of the form can hand to [handleChange]: any text
    for the text controls, an option or the placeholder for a select, a
    sanitized value for the number control. *)
Definition offered (name : string) (value : jsstring) : bool :=
  if String.eqb name "idea" then true
  else if String.eqb name "industry" then true
  else if String.eqb name "notes" then true
  else if String.eqb name "geography"
  then bool_decide (value ∈ [] :: GEOGRAPHY_OPTIONS)
  else if String.eqb name "customer_type"
  then bool_decide (value ∈ [] :: CUSTOMER_TYPE_OPTIONS)
  else if String.eqb name "business_model"
  then bool_decide (value ∈ [] :: BUSINESS_MODEL_OPTIONS)
  else if String.eqb name "price_assumption"
  then bool_decide (sanitize_number value = value)
  else false.

(** Whether the rendered form raises the event in state [st]: a change
    comes from a control with a value that control offers, the free-text
    geography input is there only while the geography is [Other], and the
    submit event needs an enabled button and valid controls. *)
Definition dispatched (st : State) (ev : event) : bool :=
  match ev with
  | Change name value => offered name value
  | ChangeGeographyOther _ => geography_other (render st)
  | TryExample => true
  | Submit => negb (submit_disabled (render st)) && satisfies_constraints st
  end.

(** States the page reaches when its handlers are called by the rendered
    form only. *)
Inductive form_reachable : State * Browser → Prop :=
| form_initial br : form_reachable (initial, br)
| form_step ev c :
    form_reachable c → dispatched c.1 ev = true → form_reachable (handle ev c).

End HomeForm.
(** * The effects of the report page *)

Module ReportEffects.
Import JS Report.

(** The other [useState] setters. *)
Definition setData (d : option AnalyzeResponse) (st : State) : State :=
  mkState d (requestData st) (isLoading st) (error st) (isDownloading st)
          (pdfAvailable st) (pdfError st) (debugMode st) (showRawJson st)
          (copiedSummary st).

Definition setRequestData (r : option document) (st : State) : State :=
  mkState (data st) r (isLoading st) (error st) (isDownloading st)
          (pdfAvailable st) (pdfError st) (debugMode st) (showRawJson st)
          (copiedSummary st).

Definition setIsLoading (b : bool) (st : State) : State :=
  mkState (data st) (requestData st) b (error st) (isDownloading st)
          (pdfAvailable st) (pdfError st) (debugMode st) (showRawJson st)
          (copiedSummary st).

Definition setError (e : option jsstring) (st : State) : State :=
  mkState (data st) (requestData st) (isLoading st) e (isDownloading st)
          (pdfAvailable st) (pdfError st) (debugMode st) (showRawJson st)
          (copiedSummary st).

Definition setIsDownloading (b : bool) (st : State) : State :=
  mkState (data st) (requestData st) (isLoading st) (error st) b
          (pdfAvailable st) (pdfError st) (debugMode st) (showRawJson st)
          (copiedSummary st).

Definition setPdfAvailable (b : bool) (st : State) : State :=
  mkState (data st) (requestData st) (isLoading st) (error st)
          (isDownloading st) b (pdfError st) (debugMode st) (showRawJson st)
          (copiedSummary st).

Definition setPdfError (e : option jsstring) (st : State) : State :=
  mkState (data st) (requestData st) (isLoading st) (error st)
          (isDownloading st) (pdfAvailable st) e (debugMode st)
          (showRawJson st) (copiedSummary st).

Definition setShowRawJson (b : bool) (st : State) : State :=
  mkState (data st) (requestData st) (isLoading st) (error st)
          (isDownloading st) (pdfAvailable st) (pdfError st) (debugMode st)
          b (copiedSummary st).

Definition setCopiedSummary (b : bool) (st : State) : State :=
  mkState (data st) (requestData st) (isLoading st) (error st)
          (isDownloading st) (pdfAvailable st) (pdfError st) (debugMode st)
          (showRawJson st) b.

(** What a [catch] clause receives: an [Error] with its message, or some
    other value. *)
Inductive thrown : Type :=
| ErrorObject (message : jsstring)
| OtherValue.

(** [err instanceof Error ? err.message : fallback] *)
Definition message_or (fallback : jsstring) (e : thrown) : jsstring :=
  match e with ErrorObject m => m | OtherValue => fallback end.

(** A fulfilled [fetch]: the status line, and what reading the body
    ([response.json()], [response.blob()]) gives or throws. *)
Record Response (B : Type) : Type := mkHttp {
  status : nat;
  statusText : jsstring;
  body : thrown + B
}.
Arguments mkHttp {B} status statusText body.
Arguments status {B} r.
Arguments statusText {B} r.
Arguments body {B} r.

(** [response.ok]: a status from 200 to 299. *)
Definition ok {B : Type} (r : Response B) : bool :=
  (200 <=? status r) && (status r <=? 299).

(** A settled [fetch]: rejected (network failure) or fulfilled. *)
Inductive fetched (B : Type) : Type :=
| Rejected (e : thrown)
| Fulfilled (r : Response B).
Arguments Rejected {B} e.
Arguments Fulfilled {B} r.

(** [parseFloat] on a value of the parsed request: the argument goes through
    ToString first.  The text of a finite number reads back as that number;
    [true], [false] and [null] read as [NaN]. *)
Definition parseFloat_value (v : option jsval) : number :=
  match v with
  | Some (VNum n) => n
  | Some (VStr s) => parseFloat s
  | Some (VBool _) | Some VNull | None => NaN
  end.

(** The body of both POST requests: the stored request with its price read
    again, [null] when the stored price is falsy. *)
Definition request_body (parsedRequest : document) : document :=
  <["price_assumption" :=
      if truthy_value (parsedRequest !! "price_assumption")
      then VNum (parseFloat_value (parsedRequest !! "price_assumption"))
      else VNull]> parsedRequest.

(** The [catch] clause of [runAnalysis]. *)
Definition analysis_failed (e : thrown) (st : State) : State :=
  setError (Some (message_or (js "Failed to analyze market viability") e)) st.

(** What [response.json()] resolves to in [runAnalysis]: [None] stands for
    a falsy value ([null], [false], [0], the empty string); any other value
    is stored by [setData(result)] as the [AnalyzeResponse] the page
    declares, without a check. *)
Abbreviation json_body := (option AnalyzeResponse).

(** [runAnalysis], awaited to its end.  [fetch] is what the server answers
    to a request body; the stored text always parses, being a document. *)
Definition runAnalysis (fetch : document → fetched json_body)
    (st : State) (br : Browser) : State * Browser :=
  match localStorage br !! "atlas_request" with
  | None => (setIsLoading false st, router_push "/" br)
  | Some parsedRequest =>
      let st1 := setRequestData (Some parsedRequest) st in
      let st2 :=
        match fetch (JSON_stringify (request_body parsedRequest)) with
        | Rejected e => analysis_failed e st1
        | Fulfilled r =>
            if negb (ok r)
            then analysis_failed
                   (ErrorObject (js "Analysis failed: " ++ statusText r)) st1
            else
              match body r with
              | inl e => analysis_failed e st1
              | inr result =>
                  setDebugMode (truthy_value (parsedRequest !! "debug"))
                               (setData result st1)
              end
        end in
      (setIsLoading false st2, br)
  end.

(** [checkPdfEndpoint], awaited to its end: a 404 or 405 to the HEAD request
    hides the button; a rejected request changes nothing. *)
Definition checkPdfEndpoint {B : Type} (head : fetched B) (st : State) : State :=
  match head with
  | Fulfilled r =>
      if (status r =? 404) || (status r =? 405)
      then setPdfError (Some (js "PDF export endpoint not available"))
                       (setPdfAvailable false st)
      else st
  | Rejected _ => st
  end.

(** The failure paths of [handleDownloadPDF]. *)
Definition pdf_unavailable (msg : jsstring) (st : State) : State :=
  setPdfAvailable false (setPdfError (Some msg) st).

(** [handleDownloadPDF], awaited to its end: the state, and the names of the
    files the anchor click downloaded. *)
Definition handleDownloadPDF {B : Type} (post : document → fetched B)
    (st : State) (br : Browser) : State * list string :=
  let st1 := setPdfError None (setIsDownloading true st) in
  let '(st2, files) :=
    match localStorage br !! "atlas_request" with
    | None => (pdf_unavailable (js "Request data not found") st1, [])
    | Some requestData =>
        match post (JSON_stringify (request_body requestData)) with
        | Rejected e =>
            (pdf_unavailable (message_or (js "Failed to download PDF") e) st1, [])
        | Fulfilled r =>
            if status r =? 404
            then (pdf_unavailable (js "PDF export endpoint not available") st1, [])
            else if negb (ok r)
            then (pdf_unavailable (js "PDF generation failed: " ++ statusText r) st1,
                  [])
            else
              match body r with
              | inl e =>
                  (pdf_unavailable (message_or (js "Failed to download PDF") e) st1,
                   [])
              | inr _ => (st1, ["atlas_memo.pdf"])
              end
        end
    end in
  (setIsDownloading false st2, files).

(** [handleDownloadPDF] in its two turns, the click and the continuation
    after the awaited request.  How the request ends is settled by what the
    click read and sent. *)
Inductive download_end : Type :=
| DownloadFailed (message : jsstring)
| DownloadDone.

Definition download_started (st : State) : State :=
  setPdfError None (setIsDownloading true st).

Definition download_response {B : Type} (post : document → fetched B)
    (br : Browser) : download_end :=
  match localStorage br !! "atlas_request" with
  | None => DownloadFailed (js "Request data not found")
  | Some requestData =>
      match post (JSON_stringify (request_body requestData)) with
      | Rejected e => DownloadFailed (message_or (js "Failed to download PDF") e)
      | Fulfilled r =>
          if status r =? 404
          then DownloadFailed (js "PDF export endpoint not available")
          else if negb (ok r)
          then DownloadFailed (js "PDF generation failed: " ++ statusText r)
          else
            match body r with
            | inl e => DownloadFailed (message_or (js "Failed to download PDF") e)
            | inr _ => DownloadDone
            end
      end
  end.

Definition download_settled (o : download_end) (st : State)
  : State * list string :=
  let '(st2, files) :=
    match o with
    | DownloadFailed message => (pdf_unavailable message st, [])
    | DownloadDone => (st, ["atlas_memo.pdf"])
    end in
  (setIsDownloading false st2, files).

(** [handleEditInputs], and the Start Over and Back buttons. *)
Definition handleEditInputs (br : Browser) : Browser := router_push "/" br.

(** [handleExportJSON]: the name of the file the anchor click downloads,
    [date] being the day part of [new Date().toISOString()]. *)
Definition handleExportJSON (date : string) (st : State) : list string :=
  match data st with
  | None => []
  | Some _ => ["atlas_analysis_" +:+ date +:+ ".json"]
  end.

(** [handleCopySummary], awaited to its end; [written] is whether
    [navigator.clipboard.writeText] resolved. *)
Definition handleCopySummary (written : bool) (st : State) (br : Browser)
  : State * Browser :=
  match data st with
  | None => (st, br)
  | Some _ =>
      if written then (setCopiedSummary true st, br)
      else (st, console_error "Failed to copy:" br)
  end.

(** The page with what it has downloaded so far, latest first, and the PDF
    requests that have been sent and not answered yet. *)
Record Page : Type := mkPage {
  state : State;
  browser : Browser;
  downloads : list string;
  in_flight : list download_end
}.

(** The events of the report page.  A click only happens on a control that
    is rendered and enabled; a download is two events, the click and the
    arrival of the answer, and other events may come between them. *)
Inductive event : Type :=
| AnalysisSettled (fetch : document → fetched json_body)
| PdfChecked (head : fetched unit)
| DownloadClicked (post : document → fetched unit)
| DownloadAnswered
| ExportJSONClicked (date : string)
| CopySummaryClicked (written : bool)
| CopiedTimeout
| DebugToggled (checked : bool)
| RawJsonToggled
| EditInputsClicked.

Definition in_memo (st : State) : bool :=
  match render st with MemoView _ => true | _ => false end.

Definition handle (ev : event) (p : Page) : Page :=
  let st := state p in
  match ev with
  | AnalysisSettled fetch =>
      let '(st', br') := runAnalysis fetch st (browser p) in
      mkPage st' br' (downloads p) (in_flight p)
  | PdfChecked head =>
      mkPage (checkPdfEndpoint head st) (browser p) (downloads p) (in_flight p)
  | DownloadClicked post =>
      if in_memo st && pdfAvailable st && negb (isDownloading st) then
        mkPage (download_started st) (browser p) (downloads p)
               (in_flight p ++ [download_response post (browser p)])
      else p
  | DownloadAnswered =>
      match in_flight p with
      | [] => p
      | o :: rest =>
          let '(st', files) := download_settled o st in
          mkPage st' (browser p) (files ++ downloads p) rest
      end
  | ExportJSONClicked date =>
      if in_memo st
      then mkPage st (browser p) (handleExportJSON date st ++ downloads p)
                  (in_flight p)
      else p
  | CopySummaryClicked written =>
      if in_memo st then
        let '(st', br') := handleCopySummary written st (browser p) in
        mkPage st' br' (downloads p) (in_flight p)
      else p
  | CopiedTimeout =>
      mkPage (setCopiedSummary false st) (browser p) (downloads p) (in_flight p)
  | DebugToggled checked =>
      if in_memo st
      then mkPage (setDebugMode checked st) (browser p) (downloads p) (in_flight p)
      else p
  | RawJsonToggled =>
      if in_memo st && debugMode st
      then mkPage (setShowRawJson (negb (showRawJson st)) st) (browser p)
                  (downloads p) (in_flight p)
      else p
  | EditInputsClicked =>
      if isLoading st then p
      else mkPage st (handleEditInputs (browser p)) (downloads p) (in_flight p)
  end.

Definition run (evs : list event) (p : Page) : Page :=
  foldl (λ p ev, handle ev p) p evs.

(** The PDF files among the downloads. *)
Definition pdf_downloads (p : Page) : list string :=
  List.filter (String.eqb "atlas_memo.pdf") (downloads p).

(** The body the report page posts for a form the input page submitted. *)
Definition posted_body (fd : gmap string jsstring) : document :=
  JSON_stringify (request_body (JSON_stringify (Home.requestData fd))).

(** A section that is only there when it has something to show, has it. *)
Definition never_empty (s : section) : Prop :=
  match s with
  | ScenariosSection rows => rows ≠ []
  | CompetitorsSection rows => rows ≠ []
  | RisksSection groups => Forall (λ g, g.2 ≠ []) groups
  | AssumptionsSection items => items ≠ []
  | DisconfirmingEvidenceSection items => items ≠ []
  | KeyUnknownsSection items => items ≠ []
  | Next7DaysTestsSection tests => tests ≠ []
  | EvidenceLedgerSection cards => cards ≠ []
  | _ => True
  end.

(** ** [formatCurrency] *)

(** [x.toFixed(2)]: the hundredths nearest to [x], the larger of two equally
    near, with the sign apart; from 10^21 on the answer is the ToString
    notation instead.  [x] is the exact quotient here; the binary64
    quotient the code rounds may fall on the other side of a half-way
    point, one hundredth away. *)
Inductive fixed : Type :=
| Fixed (negative : bool) (hundredths : Z)
| ToStringNotation.

Definition toFixed2 (x : Q) : fixed :=
  if Qle_bool (10 ^ 21) (Qabs x) then ToStringNotation
  else Fixed (negb (Qle_bool 0 x)) (Qfloor (Qabs x * 100 + (1 # 2))).

(** What [formatCurrency] shows: a dollar sign, then billions or millions
    to two decimals with the suffix [B] or [M], or the value in the locale's
    notation. *)
Inductive amount : Type :=
| Billions (mantissa : fixed)
| Millions (mantissa : fixed)
| Locale (value : Q).

Definition formatCurrency (value : Q) : amount :=
  if Qle_bool 1000000000 value then Billions (toFixed2 (value / 1000000000))
  else if Qle_bool 1000000 value then Millions (toFixed2 (value / 1000000))
  else Locale value.

End ReportEffects.

(** * The input form *)

Module HomeFacts.
Import JS Home Claims.

Lemma trimStart_nil (s : jsstring) :
  trimStart s = [] ↔ forallb is_whitespace s = true.
Proof.
  induction s as [|c r IH]; simpl; [done|].
  destruct (is_whitespace c); simpl; [exact IH|].
  split; discriminate.
Qed.

Lemma trimStart_head (s : jsstring) c r :
  trimStart s = c :: r → is_whitespace c = false.
Proof.
  induction s as [|a s IH]; simpl; [discriminate|].
  destruct (is_whitespace a) eqn:E; [exact IH|].
  intros [= -> _]. exact E.
Qed.

Lemma forallb_rev {A} (f : A → bool) (l : list A) :
  forallb f (rev l) = forallb f l.
Proof.
  induction l as [|a l IH]; simpl; [done|].
  rewrite forallb_app, IH. simpl. rewrite andb_true_r. apply andb_comm.
Qed.

(** [trim] leaves nothing exactly when every code unit is white space. *)
Lemma trim_nil (s : jsstring) :
  trim s = [] ↔ forallb is_whitespace s = true.
Proof.
  unfold trim, trimEnd. split.
  - intros H. apply (f_equal (@rev N)) in H. rewrite rev_involutive in H.
    simpl in H. apply trimStart_nil in H. rewrite forallb_rev in H.
    destruct (trimStart s) as [|c r] eqn:E; [by apply trimStart_nil|].
    apply trimStart_head in E. simpl in H. rewrite E in H. discriminate.
  - intros H. apply trimStart_nil in H. by rewrite H.
Qed.

Lemma not_all_whitespace (s : jsstring) :
  forallb is_whitespace s = false → has_text s.
Proof.
  unfold has_text. induction s as [|a s IH]; simpl; [discriminate|].
  destruct (is_whitespace a) eqn:E; simpl.
  - intros H. right. by apply IH.
  - intros _. by left.
Qed.

Lemma has_text_not_all_whitespace (s : jsstring) :
  has_text s → forallb is_whitespace s = false.
Proof.
  unfold has_text. induction 1 as [a s H|a s _ IH]; simpl.
  - by rewrite H.
  - rewrite IH. apply andb_false_r.
Qed.

Lemma truthy_trim (s : jsstring) : truthy (trim s) = true ↔ has_text s.
Proof.
  destruct (trim s) as [|c r] eqn:E; simpl.
  - apply trim_nil in E. split; [discriminate|].
    intros H. apply has_text_not_all_whitespace in H. congruence.
  - split; [intros _|done]. apply not_all_whitespace.
    destruct (forallb is_whitespace s) eqn:F; [|done].
    apply trim_nil in F. congruence.
Qed.

(** One guarded assignment [if (b) newErrors.k = v]. *)
Lemma guarded_empty (b : bool) (k : string) (v : jsstring) (m : gmap string jsstring) :
  (if b then <[k := v]> m else m) = ∅ ↔ b = false ∧ m = ∅.
Proof.
  destruct b; split.
  - intros H. by apply insert_non_empty in H.
  - intros [? _]; discriminate.
  - intros H. by split.
  - intros [_ H]. exact H.
Qed.

Lemma guarded_lookup (b : bool) (k k' : string) (v : jsstring)
    (m : gmap string jsstring) :
  (if b then <[k := v]> m else m) !! k'
  = if b && bool_decide (k = k') then Some v else m !! k'.
Proof.
  destruct b; simpl; [|done].
  rewrite lookup_insert. by destruct (decide (k = k')); case_bool_decide.
Qed.

Lemma guarded_Forall (P : string → jsstring → Prop) (b : bool) (k : string)
    (v : jsstring) (m : gmap string jsstring) :
  P k v → map_Forall P m → map_Forall P (if b then <[k := v]> m else m).
Proof. intros Hv Hm. destruct b; [by apply map_Forall_insert_2|done]. Qed.

(** The error object is empty exactly when none of the six guards fires. *)
Lemma newErrors_empty (fd : gmap string jsstring) :
  newErrors fd = ∅ ↔
    truthy (trim (fd !!! "idea")) = true
    ∧ truthy (trim (fd !!! "industry")) = true
    ∧ truthy (fd !!! "geography") = true
    ∧ truthy (fd !!! "customer_type") = true
    ∧ truthy (fd !!! "business_model") = true
    ∧ truthy (fd !!! "price_assumption")
      && isNaN (parseFloat (fd !!! "price_assumption")) = false.
Proof.
  unfold newErrors. cbv zeta. rewrite !guarded_empty, !negb_false_iff.
  intuition.
Qed.

Lemma truthy_non_empty (s : jsstring) : truthy s = true ↔ s ≠ [].
Proof. destruct s; simpl; split; done. Qed.

Lemma isNaN_false (n : number) : isNaN n = false ↔ n ≠ NaN.
Proof. destruct n; simpl; split; done. Qed.

Lemma price_guard (s : jsstring) :
  truthy s && isNaN (parseFloat s) = false ↔ s = [] ∨ parseFloat s ≠ NaN.
Proof.
  rewrite andb_false_iff, isNaN_false.
  destruct s; simpl; split; intros [H|H]; auto; done.
Qed.

Lemma validateForm_spec (st : State) :
  (validateForm st).1 = true ↔ well_formed (formData st).
Proof.
  unfold validateForm, well_formed. simpl.
  rewrite bool_decide_eq_true, map_size_empty_iff, newErrors_empty.
  by rewrite !truthy_trim, !truthy_non_empty, price_guard.
Qed.

(** Every message [validateForm] produces is a non-empty string. *)
Lemma newErrors_truthy (fd : gmap string jsstring) :
  map_Forall (λ _ msg, truthy msg = true) (newErrors fd).
Proof.
  unfold newErrors. cbv zeta.
  repeat (apply guarded_Forall; [reflexivity|]). apply map_Forall_empty.
Qed.

(** Reading the error object at a key. *)
Lemma newErrors_lookup (fd : gmap string jsstring) (k : string) :
  newErrors fd !! k =
    if truthy (fd !!! "price_assumption")
       && isNaN (parseFloat (fd !!! "price_assumption"))
       && bool_decide ("price_assumption" = k)
    then Some (js "Price assumption must be a valid number")
    else if negb (truthy (fd !!! "business_model")) && bool_decide ("business_model" = k)
    then Some (js "Business model is required")
    else if negb (truthy (fd !!! "customer_type")) && bool_decide ("customer_type" = k)
    then Some (js "Customer type is required")
    else if negb (truthy (fd !!! "geography")) && bool_decide ("geography" = k)
    then Some (js "Geography is required")
    else if negb (truthy (trim (fd !!! "industry"))) && bool_decide ("industry" = k)
    then Some (js "Industry is required")
    else if negb (truthy (trim (fd !!! "idea"))) && bool_decide ("idea" = k)
    then Some (js "Startup idea is required")
    else None.
Proof.
  unfold newErrors. cbv zeta. rewrite !guarded_lookup. by rewrite lookup_empty.
Qed.

(** The keys of the error object are the fields whose guard fired. *)
Lemma newErrors_fields (fd : gmap string jsstring) :
  per_field_errors fd (newErrors fd).
Proof.
  unfold per_field_errors.
  rewrite <- !truthy_trim, !newErrors_lookup.
  assert (Hb : ∀ b : bool, b && false = false) by (intros []; done).
  assert (Ht : ∀ b : bool, b && true = b) by (intros []; done).
  repeat match goal with
         | |- context [bool_decide (?a = ?b)] =>
             let e := eval vm_compute in (bool_decide (a = b)) in
             change (bool_decide (a = b)) with e
         end.
  rewrite !Hb, !Ht. cbv iota.
  assert (Hn : ∀ s : jsstring, s = [] ↔ truthy s = false) by (intros []; done).
  rewrite !Hn, <- !not_true_iff_false.
  assert (Hs : ∀ (b : bool) (v : jsstring),
             is_Some (if negb b then Some v else None) ↔ b ≠ true).
  { intros [] v; simpl; split; intros H; try done. all: try (by destruct H). all: try (by eexists). }
  rewrite !Hs.
  do 5 (split; [tauto|]).
  split; [intros H; split|intros [H1 H2]].
  - destruct (truthy (fd !!! "price_assumption")); simpl in H.
    + intros X. by apply X.
    + by destruct H.
  - destruct (truthy (fd !!! "price_assumption")),
             (parseFloat (fd !!! "price_assumption"));
      simpl in H; try done; by destruct H.
  - rewrite H2.
    destruct (truthy (fd !!! "price_assumption")); simpl; [by eexists|].
    exfalso. by apply H1.
Qed.

(** The three ways [handleSubmit] ends. *)
Lemma handleSubmit_cases (st : State) (br : Browser) :
  handleSubmit st br =
    let ne := newErrors (formData st) in
    if (validateForm st).1 then
      if storage_writable br then
        (mkState (formData st) ne true,
         mkBrowser (<["atlas_request" := JSON_stringify (requestData (formData st))]>
                      (localStorage br))
                   (storage_writable br) ("/report" :: history br) (console br))
      else
        (mkState (formData st) ne false,
         console_error "Error storing request:" br)
    else (mkState (formData st) ne (isLoading st), br).
Proof.
  unfold handleSubmit, validateForm, setItem. simpl.
  destruct (bool_decide (size (newErrors (formData st)) = 0)); simpl; [|done].
  by destruct (storage_writable br).
Qed.

Lemma cons_not_self {A} (a : A) (l : list A) : l ≠ a :: l.
Proof. intros H. apply (f_equal length) in H. simpl in H. lia. Qed.

Lemma submits_iff (st : State) (br : Browser) :
  submits st br ↔ (validateForm st).1 = true ∧ storage_writable br = true.
Proof.
  unfold submits. rewrite handleSubmit_cases. cbv zeta.
  destruct (validateForm st).1, (storage_writable br); simpl.
  - rewrite lookup_insert_eq. by split; intros _; split.
  - split; [intros [_ H]|intros [_ ?]; discriminate]. by apply cons_not_self in H.
  - split; [intros [_ H]|intros [? _]; discriminate]. by apply cons_not_self in H.
  - split; [intros [_ H]|intros [? _]; discriminate]. by apply cons_not_self in H.
Qed.

Lemma requestData_debug (fd : gmap string jsstring) :
  JSON_stringify (requestData fd) !! "debug" = Some (VBool false).
Proof.
  unfold JSON_stringify, requestData. by rewrite lookup_fmap, lookup_insert_eq.
Qed.

(** The price [handleSubmit] stores: [null] for an empty field, else what
    [parseFloat] reads, with non-finite values written as [null]. *)
Lemma requestData_price (fd : gmap string jsstring) :
  JSON_stringify (requestData fd) !! "price_assumption"
  = Some (json_value (if truthy (fd !!! "price_assumption")
                      then VNum (parseFloat (fd !!! "price_assumption"))
                      else VNull)).
Proof.
  unfold JSON_stringify, requestData.
  rewrite lookup_fmap, lookup_insert_ne by done. by rewrite lookup_insert_eq.
Qed.

(** In every state the page reaches, the messages on display are non-empty
    strings, so a field with an error reads as truthy. *)
Lemma reachable_errors_truthy (c : State * Browser) :
  reachable c → map_Forall (λ _ msg, truthy msg = true) (errors c.1).
Proof.
  induction 1 as [br|ev [st br] _ IH]; simpl in *.
  - apply map_Forall_empty.
  - destruct ev as [name value|value| |]; simpl.
    + unfold handleChange. destruct (truthy_prop (errors st !! name)); simpl; [|done].
      by apply map_Forall_delete.
    + done.
    + apply map_Forall_empty.
    + rewrite handleSubmit_cases. cbv zeta.
      destruct (validateForm st).1, (storage_writable br); simpl;
        apply newErrors_truthy.
Qed.

(** The seven declared fields are present in every reachable state, so
    reading one never yields [undefined]. *)
Lemma reachable_fields (c : State * Browser) (k : string) :
  reachable c →
  k ∈ ["idea"; "industry"; "geography"; "customer_type"; "business_model";
       "price_assumption"; "notes"] →
  is_Some (formData c.1 !! k).
Proof.
  intros Hc Hk. induction Hc as [br|ev [st br] _ IH]; simpl in *.
  - repeat (apply elem_of_cons in Hk as [->|Hk]; [by eexists|]).
    by apply elem_of_nil in Hk.
  - destruct ev as [name value|value| |]; simpl.
    + unfold handleChange.
      assert (is_Some (<[name := value]> (formData st) !! k)) as Hs.
      { rewrite lookup_insert. destruct (decide (name = k)); [by eexists|done]. }
      by destruct (truthy_prop (errors st !! name)).
    + rewrite lookup_insert. destruct (decide ("geography" = k)); [by eexists|done].
    + repeat (apply elem_of_cons in Hk as [->|Hk]; [by eexists|]).
      by apply elem_of_nil in Hk.
    + rewrite handleSubmit_cases. cbv zeta.
      by destruct (validateForm st).1, (storage_writable br).
Qed.

(** C4 (as the code has it).  [validateForm] answers [true] exactly on a
    well-formed input.  [handleSubmit] stores the request and navigates to
    the report page exactly when [validateForm] answers [true] and the write
    to localStorage does not throw.  When [validateForm] answers [false],
    every offending field gets an error and nothing is stored or pushed;
    when the write throws, the error is logged, loading ends, and nothing is
    stored or pushed. *)
Theorem handleSubmit_validation (st : State) (br : Browser) :
  ((validateForm st).1 = true ↔ well_formed (formData st))
  ∧ (submits st br ↔ (validateForm st).1 = true ∧ storage_writable br = true)
  ∧ ((validateForm st).1 = false →
       (handleSubmit st br).2 = br
       ∧ errors (handleSubmit st br).1 ≠ ∅
       ∧ per_field_errors (formData st) (errors (handleSubmit st br).1))
  ∧ ((validateForm st).1 = true → storage_writable br = false →
       localStorage (handleSubmit st br).2 = localStorage br
       ∧ history (handleSubmit st br).2 = history br
       ∧ console (handleSubmit st br).2 = "Error storing request:" :: console br
       ∧ isLoading (handleSubmit st br).1 = false).
Proof.
  split; [apply validateForm_spec|].
  split; [apply submits_iff|].
  rewrite handleSubmit_cases. cbv zeta. split.
  - intros Hv. rewrite Hv. simpl. split; [done|].
    split; [|apply newErrors_fields].
    intros He. unfold validateForm in Hv. simpl in Hv.
    apply bool_decide_eq_false in Hv. apply Hv. by rewrite He.
  - intros Hv Hw. by rewrite Hv, Hw.
Qed.

(** The valid example form, submitted in a browser that accepts the write,
    and the empty form, which is rejected. *)
Lemma handleSubmit_validation_witness :
  submits Samples.filled Samples.browser
  ∧ per_field_errors (formData initial)
                     (errors (handleSubmit initial Samples.browser).1)
  ∧ isLoading (handleSubmit Samples.filled Samples.full_browser).1 = false.
Proof.
  destruct (handleSubmit_validation Samples.filled Samples.browser)
    as (_ & Hs & _ & _).
  destruct (handleSubmit_validation initial Samples.browser)
    as (_ & _ & He & _).
  destruct (handleSubmit_validation Samples.filled Samples.full_browser)
    as (_ & _ & _ & Hf).
  split; [apply Hs; split; vm_compute; reflexivity|].
  split; [apply He; vm_compute; reflexivity|].
  apply Hf; vm_compute; reflexivity.
Defined.

(** C4, as stated, fails when localStorage refuses the write: the example
    form validates, yet nothing is stored and the router is not pushed. *)
Lemma handleSubmit_validation_counterexample :
  ¬ (submits Samples.filled Samples.full_browser
     ↔ (validateForm Samples.filled).1 = true).
Proof.
  intros [_ H].
  assert (Hv : (validateForm Samples.filled).1 = true) by (vm_compute; reflexivity).
  apply H in Hv. destruct Hv as [_ Hh]. vm_compute in Hh. discriminate.
Qed.

(** What the code does keep of the price: what is stored is [null] or a finite
    number, never [NaN]. *)
Lemma stored_price_null_or_finite (fd : gmap string jsstring) :
  JSON_stringify (requestData fd) !! "price_assumption" = Some VNull
  ∨ ∃ q, JSON_stringify (requestData fd) !! "price_assumption"
         = Some (VNum (Finite q)).
Proof.
  rewrite requestData_price.
  destruct (truthy (fd !!! "price_assumption")); [|by left].
  destruct (parseFloat (fd !!! "price_assumption")); simpl; eauto.
Qed.

(** C9.  Whatever the form holds, the request [handleSubmit] builds has
    [debug] set to [false], and the only thing [handleSubmit] ever writes to
    localStorage is that request, under the key [atlas_request]. *)
Theorem handleSubmit_debug_false (st : State) (br : Browser) :
  JSON_stringify (requestData (formData st)) !! "debug" = Some (VBool false)
  ∧ (localStorage (handleSubmit st br).2 = localStorage br
     ∨ localStorage (handleSubmit st br).2
       = <["atlas_request" := JSON_stringify (requestData (formData st))]>
           (localStorage br)).
Proof.
  split; [apply requestData_debug|].
  rewrite handleSubmit_cases. cbv zeta.
  destruct (validateForm st).1, (storage_writable br); simpl; auto.
Qed.

(** C10.  In any state the page reaches, a change of the field [name]
    writes [value] at [name] in [formData] and removes the entry [name] of
    [errors]; every other entry of both, and the loading flag, are as
    before. *)
Theorem handleChange_frame (c : State * Browser) (name : string) (value : jsstring) :
  reachable c →
  let st := c.1 in
  let st' := handleChange name value st in
  formData st' = <[name := value]> (formData st)
  ∧ errors st' = delete name (errors st)
  ∧ isLoading st' = isLoading st
  ∧ formData st' !! name = Some value
  ∧ errors st' !! name = None
  ∧ (∀ k, k ≠ name →
       formData st' !! k = formData st !! k ∧ errors st' !! k = errors st !! k).
Proof.
  intros Hc st st'. pose proof (reachable_errors_truthy c Hc) as Ht.
  assert (He : errors st' = delete name (errors st)).
  { subst st'. unfold handleChange.
    destruct (errors st !! name) as [msg|] eqn:E; simpl.
    - apply Ht in E. simpl in E. by rewrite E.
    - symmetry. by apply delete_id. }
  assert (Hf : formData st' = <[name := value]> (formData st)).
  { subst st'. unfold handleChange.
    by destruct (truthy_prop (errors st !! name)). }
  rewrite He, Hf. repeat split.
  - subst st'. unfold handleChange.
    by destruct (truthy_prop (errors st !! name)).
  - apply lookup_insert_eq.
  - apply lookup_delete_eq.
  - by apply lookup_insert_ne.
  - by apply lookup_delete_ne.
Qed.

(** The rejected empty form shows an error on [idea]; typing into the field
    clears that error and leaves the one on [industry]. *)
Lemma handleChange_frame_witness :
  errors (handleChange "idea" (js "x") Samples.rejected) !! "idea" = None
  ∧ errors (handleChange "idea" (js "x") Samples.rejected) !! "industry"
    = errors Samples.rejected !! "industry".
Proof.
  assert (Hr : reachable (Samples.rejected, Samples.browser)).
  { change (Samples.rejected, Samples.browser)
      with (handle Submit (initial, Samples.browser)).
    apply reachable_step, reachable_initial. }
  destruct (handleChange_frame (Samples.rejected, Samples.browser) "idea" (js "x") Hr)
    as (_ & _ & _ & _ & Hn & Ho).
  split; [exact Hn|]. by apply Ho.
Defined.

End HomeFacts.

(** * Submission through the form's controls *)

Module HomeFormFacts.
Import JS Home HomeView HomeForm Claims.

Lemma handleSubmit_formData (st : State) (br : Browser) :
  formData (handleSubmit st br).1 = formData st.
Proof.
  rewrite HomeFacts.handleSubmit_cases. cbv zeta.
  by destruct (validateForm st).1, (storage_writable br).
Qed.

Lemma handleChange_formData (name : string) (value : jsstring) (st : State) :
  formData (handleChange name value st) = <[name := value]> (formData st).
Proof. unfold handleChange. by destruct (truthy_prop (errors st !! name)). Qed.

(** The price a form-reached state holds is a value of the number control:
    empty or a valid floating-point number. *)
Lemma form_reachable_price (c : State * Browser) :
  form_reachable c →
  sanitize_number (formData c.1 !!! "price_assumption")
  = formData c.1 !!! "price_assumption".
Proof.
  induction 1 as [br|ev [st br] _ IH Hd]; simpl in *; [done|].
  destruct ev as [name value|value| |]; simpl in *.
  - rewrite handleChange_formData.
    destruct (decide (name = "price_assumption")) as [->|Hn].
    + rewrite lookup_total_insert_eq. by apply bool_decide_eq_true in Hd.
    + by rewrite lookup_total_insert_ne.
  - by rewrite lookup_total_insert_ne.
  - done.
  - by rewrite handleSubmit_formData.
Qed.

(** A number control that does not suffer from an underflow holds no
    negative number. *)
Lemma no_underflow_stored (fd : gmap string jsstring) :
  range_underflow (fd !!! "price_assumption") = false →
  null_or_non_negative (JSON_stringify (requestData fd) !! "price_assumption").
Proof.
  intros Hu. rewrite HomeFacts.requestData_price. unfold null_or_non_negative.
  destruct (truthy (fd !!! "price_assumption")); [|by left].
  unfold range_underflow in Hu.
  destruct (parseFloat (fd !!! "price_assumption")) as [|neg|q]; simpl;
    [by left..|].
  right. exists q. split; [done|].
  apply negb_false_iff in Hu. by apply Qle_bool_iff.
Qed.

(** C3, as stated, fails for the price text [-5]: the number control lets
    the user type it, it would produce the negative price -5, and
    [validateForm], which tests the price for [NaN] only, does not reject
    it.  What keeps it out of a request is the control's [min]: the submit
    event is not raised. *)
Lemma validateForm_accepts_negative :
  form_reachable (Samples.negative_price, Samples.browser)
  ∧ (validateForm Samples.negative_price).1 = true
  ∧ JSON_stringify (requestData (formData Samples.negative_price))
      !! "price_assumption" = Some (VNum (Finite (-5 # 1)))
  ∧ ¬ null_or_non_negative
        (JSON_stringify (requestData (formData Samples.negative_price))
           !! "price_assumption")
  ∧ dispatched Samples.negative_price Submit = false.
Proof.
  assert (Hp : JSON_stringify (requestData (formData Samples.negative_price))
                 !! "price_assumption" = Some (VNum (Finite (-5 # 1))))
    by (vm_compute; reflexivity).
  split.
  { change (Samples.negative_price, Samples.browser)
      with (handle (Change "price_assumption" (js "-5"))
              (handle TryExample (initial, Samples.browser))).
    apply form_step; [|vm_compute; reflexivity].
    by apply form_step; [apply form_initial|]. }
  split; [vm_compute; reflexivity|].
  split; [exact Hp|].
  split; [|vm_compute; reflexivity].
  rewrite Hp. intros [H|(q & H & Hq)]; [discriminate|].
  injection H as <-. vm_compute in Hq. by apply Hq.
Qed.

(** C3 (as the form gives it).  Every submit event the form raises leads
    to a request whose price is [null] or a non-negative number, and that
    request is the only thing [handleSubmit] may store: the number control
    holds the empty value or a valid floating-point number, and its [min]
    of 0 keeps the event from being raised on a negative one.
    [validateForm] for its part rejects every non-empty price text that
    [parseFloat] reads as [NaN], and then nothing is stored. *)
Theorem submitted_price_non_negative (c : State * Browser) :
  form_reachable c → dispatched c.1 Submit = true →
  let request := JSON_stringify (requestData (formData c.1)) in
  null_or_non_negative (request !! "price_assumption")
  ∧ (localStorage (handle Submit c).2 = localStorage c.2
     ∨ localStorage (handle Submit c).2
       = <["atlas_request" := request]> (localStorage c.2))
  ∧ (∀ st br,
       formData st !!! "price_assumption" ≠ [] →
       parseFloat (formData st !!! "price_assumption") = NaN →
       (validateForm st).1 = false ∧ (handleSubmit st br).2 = br).
Proof.
  intros Hc Hd request. pose proof (form_reachable_price c Hc) as Hp.
  destruct c as [st br]. simpl in *.
  apply andb_true_iff in Hd as [_ Hd]. unfold satisfies_constraints in Hd.
  cbv zeta in Hd. rewrite Hp in Hd.
  apply andb_true_iff in Hd as [Hd _]. apply andb_true_iff in Hd as [_ Hd].
  apply negb_true_iff in Hd.
  split; [by apply no_underflow_stored|]. split.
  - rewrite HomeFacts.handleSubmit_cases. cbv zeta.
    destruct (validateForm st).1, (storage_writable br); simpl; auto.
  - intros st' br' Hne Hnan.
    assert (Herr : newErrors (formData st') !! "price_assumption"
                   = Some (js "Price assumption must be a valid number")).
    { rewrite HomeFacts.newErrors_lookup, Hnan.
      apply HomeFacts.truthy_non_empty in Hne. by rewrite Hne. }
    assert (Hv : (validateForm st').1 = false).
    { unfold validateForm. simpl. apply bool_decide_eq_false.
      rewrite map_size_empty_iff. intros He. rewrite He in Herr. done. }
    split; [done|]. rewrite HomeFacts.handleSubmit_cases. cbv zeta.
    by rewrite Hv.
Qed.

(** The example form, filled in by the Try an example button, submits a
    price of 9.99; with the price changed to [-5] the submit event is not
    raised. *)
Lemma submitted_price_non_negative_witness :
  null_or_non_negative
    (JSON_stringify (requestData (formData Samples.filled)) !! "price_assumption")
  ∧ dispatched Samples.negative_price Submit = false.
Proof.
  assert (Hr : form_reachable (Samples.filled, Samples.browser)).
  { change (Samples.filled, Samples.browser)
      with (handle TryExample (initial, Samples.browser)).
    by apply form_step; [apply form_initial|]. }
  split; [|vm_compute; reflexivity].
  apply (submitted_price_non_negative (Samples.filled, Samples.browser) Hr).
  vm_compute. reflexivity.
Defined.

End HomeFormFacts.

(** * The report page *)

Module ReportFacts.
Import JS Report Claims.

Lemma flat_map_when {A B} (f : A → list B) (c : bool) (x : A) :
  flat_map f (when c x) = if c then f x else [].
Proof. destruct c; simpl; [apply app_nil_r|done]. Qed.

Lemma if_same {A} (c : bool) (x : A) : (if c then x else x) = x.
Proof. by destruct c. Qed.

(** Without a pending load or an error, the page shows the memo of its
    response. *)
Lemma render_memo (st : State) (d : AnalyzeResponse) :
  isLoading st = false → truthy_prop (error st) = false → data st = Some d →
  render st = MemoView (memo d st).
Proof. unfold render. by intros -> -> ->. Qed.

Lemma idea_title_sections (st : State) :
  Forall (λ s, ∃ v, s = IdeaTitle v)
    match requestData st with
    | Some r => if truthy_value (r !! "idea")
                then from_option (λ v, [IdeaTitle v]) [] (r !! "idea") else []
    | None => []
    end.
Proof.
  destruct (requestData st) as [r|]; [|constructor].
  destruct (truthy_value (r !! "idea")); [|constructor].
  destruct (r !! "idea"); simpl; repeat constructor. by eexists.
Qed.

Lemma flat_map_idea_title {B} (f : section → list B) (l : list section) :
  (∀ v, f (IdeaTitle v) = []) →
  Forall (λ s, ∃ v, s = IdeaTitle v) l → flat_map f l = [].
Proof.
  intros Hf. induction 1 as [|s l [v ->] _ IH]; simpl; [done|].
  by rewrite Hf, IH.
Qed.

(** The Evidence Ledger sections of the memo. *)
Lemma memo_ledger (d : AnalyzeResponse) (st : State) :
  flat_map ledger_of (memo d st) =
    if debugMode st then
      match evidence_ledger d with
      | Some ledger => if non_empty ledger then [ledger] else []
      | None => []
      end
    else [].
Proof.
  unfold memo. rewrite !flat_map_app, !flat_map_when.
  rewrite (flat_map_idea_title _ _ (λ _, eq_refl) (idea_title_sections st)).
  simpl. rewrite !if_same. simpl.
  destruct (debugMode st); simpl; [|done].
  destruct (evidence_ledger d) as [ledger|]; simpl; [|done].
  rewrite flat_map_when. simpl. by rewrite app_nil_r.
Qed.

(** The scenario tables of the memo. *)
Lemma memo_scenarios (d : AnalyzeResponse) (st : State) :
  flat_map scenario_table_of (memo d st) =
    let s := scenarios d in
    if present (Scenarios.bear s) || present (Scenarios.base s)
       || present (Scenarios.bull s)
    then [scenario_rows s] else [].
Proof.
  unfold memo. rewrite !flat_map_app, !flat_map_when.
  rewrite (flat_map_idea_title _ _ (λ _, eq_refl) (idea_title_sections st)).
  simpl. rewrite !if_same. simpl.
  assert (flat_map scenario_table_of (if debugMode st then debug_sections d st else []) = []) as ->.
  { destruct (debugMode st); simpl; [|done].
    destruct (evidence_ledger d); simpl; [|done].
    rewrite flat_map_when. simpl. apply if_same. }
  by rewrite app_nil_r.
Qed.



(** A request the form stored never turns debug mode on by itself: the page
    starts with the box unchecked. *)
Lemma form_request_debug_off (fd : gmap string jsstring) (d : AnalyzeResponse)
    (st : State) :
  debugMode (analysisLoaded (JSON_stringify (Home.requestData fd)) d st) = false.
Proof.
  unfold analysisLoaded. simpl.
  unfold JSON_stringify, Home.requestData.
  by rewrite lookup_fmap, lookup_insert_eq.
Qed.

End ReportFacts.

(** * The decision core *)

Module CoreFacts.
Import JS Report Core Claims.


(** ** Ordering by impact magnitude *)

Lemma Qle_bool_false (x y : Q) : Qle_bool x y = false → (y < x)%Q.
Proof.
  intros H. apply Qnot_le_lt. intros Hle. apply Qle_bool_iff in Hle. congruence.
Qed.

Lemma insert_by_magnitude_Forall (P : Sensitivity.t → Prop) r l :
  P r → Forall P l → Forall P (insert_by_magnitude r l).
Proof.
  intros Hr. induction 1 as [|x l Hx Hl IH]; simpl; [by repeat constructor|].
  destruct (Qle_bool _ _); repeat constructor; auto.
Qed.

Lemma insert_by_magnitude_sorted r l :
  StronglySorted descending l → StronglySorted descending (insert_by_magnitude r l).
Proof.
  induction 1 as [|x l Hl IH Hx]; simpl; [by repeat constructor|].
  destruct (Qle_bool _ _) eqn:E.
  - apply Qle_bool_iff in E. constructor; [by constructor|].
    constructor; [exact E|].
    eapply Forall_impl; [exact Hx|]. unfold descending. intros y Hy. simpl in Hy.
    exact (Qle_trans _ _ _ Hy E).
  - apply Qle_bool_false in E. constructor; [exact IH|].
    apply insert_by_magnitude_Forall; [|exact Hx].
    unfold descending. by apply Qlt_le_weak.
Qed.

Lemma sort_by_magnitude_sorted l : StronglySorted descending (sort_by_magnitude l).
Proof.
  induction l as [|r l IH]; simpl; [constructor|].
  by apply insert_by_magnitude_sorted.
Qed.

Lemma insert_by_magnitude_perm r l : Permutation (r :: l) (insert_by_magnitude r l).
Proof.
  induction l as [|x l IH]; simpl; [done|].
  destruct (Qle_bool _ _); [done|].
  rewrite perm_swap. by constructor.
Qed.

Lemma sort_by_magnitude_perm l : Permutation l (sort_by_magnitude l).
Proof.
  induction l as [|r l IH]; simpl; [done|].
  rewrite <- insert_by_magnitude_perm. by constructor.
Qed.

(** Inserting an entry moves it past strictly larger entries only, so it
    stays in front of every entry it ties with. *)
Lemma insert_by_magnitude_tied m r l :
  tied m (insert_by_magnitude r l) = tied m (r :: l).
Proof.
  induction l as [|x l IH]; [done|]. simpl insert_by_magnitude.
  destruct (Qle_bool _ _) eqn:E; [done|].
  apply Qle_bool_false in E. unfold tied in *. simpl in *. rewrite IH.
  destruct (Qeq_bool (Sensitivity.impact_magnitude r) m) eqn:Er; [|done].
  destruct (Qeq_bool (Sensitivity.impact_magnitude x) m) eqn:Ex; [|done].
  apply Qeq_bool_iff in Er, Ex. rewrite Er, Ex in E.
  by apply Qlt_irrefl in E.
Qed.

Lemma sort_by_magnitude_tied m l : tied m (sort_by_magnitude l) = tied m l.
Proof.
  induction l as [|r l IH]; [done|]. simpl sort_by_magnitude.
  rewrite insert_by_magnitude_tied. unfold tied in *. simpl. by rewrite IH.
Qed.

Lemma collect_Forall2 {A B} (f : A → completion B) l rs :
  collect f l = Normal rs → Forall2 (λ a r, f a = Normal r) l rs.
Proof.
  revert rs. induction l as [|a l IH]; simpl; intros rs.
  - intros [= <-]. constructor.
  - destruct (f a) as [b|e] eqn:E; simpl; [|discriminate].
    destruct (collect f l) as [bs|e]; simpl; [|discriminate].
    intros [= <-]. constructor; auto.
Qed.

Section PipelineFacts.

Variable aggregate_tam : list LedgerEntry.t → Scope → RangeEstimate.t.
Variable bear_multipliers bull_multipliers : BuilderInput → BuilderInput.
Variable raw_confidence : Collected → MarketModel.t → Z.
Variable policy : MarketModel.t → Z → Risks.t → nat → Verdict.
Variable generate_content : Verdict → Z → MarketModel.t → Content.

Local Abbreviation build := (Core.build aggregate_tam).
Local Abbreviation analyze :=
  (Core.analyze aggregate_tam bear_multipliers bull_multipliers raw_confidence
                policy generate_content).


Lemma sensitivity_result_consistent i a r :
  sensitivity_result aggregate_tam i a = Normal r →
  magnitude_consistent r ∧ Sensitivity.assumption_name r = tracked_name a.
Proof.
  unfold sensitivity_result.
  destruct (som_base aggregate_tam i); simpl; [|discriminate].
  destruct (som_base aggregate_tam (perturb a (7 # 10) i)); simpl; [|discriminate].
  destruct (som_base aggregate_tam (perturb a (13 # 10) i)); simpl; [|discriminate].
  by intros [= <-].
Qed.

(** What a successful analysis consists of. *)
Lemma analyze_inv req c addressable obtainable tracked r :
  analyze req c addressable obtainable tracked = Normal r →
  let i := mkBuilderInput (claims c) (request_scope req) addressable obtainable in
  ∃ m bear base bull declared,
    build i = Normal m
    ∧ scenario aggregate_tam "bear" (bear_multipliers i) = Normal bear
    ∧ scenario aggregate_tam "base" i = Normal base
    ∧ scenario aggregate_tam "bull" (bull_multipliers i) = Normal bull
    ∧ collect (sensitivity_result aggregate_tam i) tracked = Normal declared
    ∧ market r = market_response m
    ∧ scenarios r = Scenarios.mk (Some bear) (Some base) (Some bull)
    ∧ sensitivity_analysis r = sort_by_magnitude declared
    ∧ confidence_score r = inject_Z (clamp 0 100 (raw_confidence c m))
    ∧ evidence_ledger r = (if debug req then Some (claims c) else None)
    ∧ Report.competitors r = List.filter sourced (Core.competitors c).
Proof.
  unfold Core.analyze, generate_scenarios, analyze_sensitivity.
  cbv zeta.
  destruct (Core.build _ _) as [m|] eqn:Em; simpl; [|discriminate].
  destruct (scenario _ "bear" _) as [bear|]; simpl; [|discriminate].
  destruct (scenario _ "base" _) as [base|]; simpl; [|discriminate].
  destruct (scenario _ "bull" _) as [bull|]; simpl; [|discriminate].
  destruct (collect _ _) as [declared|]; simpl; [|discriminate].
  intros [= <-]. by exists m, bear, base, bull, declared.
Qed.


(** C2.  The confidence score of a response is an integer between 0 and
    100. *)
Theorem confidence_score_range req c addressable obtainable tracked r :
  analyze req c addressable obtainable tracked = Normal r →
  ∃ z : Z, confidence_score r = inject_Z z ∧ (0 ≤ z ≤ 100)%Z.
Proof.
  intros Ha.
  apply analyze_inv in Ha as (m & _ & _ & _ & _ & _ & _ & _ & _ & _ & _ & _ & _ & Hs & _).
  rewrite Hs. eexists. split; [reflexivity|]. unfold clamp. lia.
Qed.

(** C6.  The scenarios of a response hold bear, base and bull, each the
    Builder's market model for that scenario's input (bear and bull under
    their multiplier sets, base on the input as given), and the memo shows
    the three rows. *)
Theorem scenarios_all_present req c addressable obtainable tracked r :
  analyze req c addressable obtainable tracked = Normal r →
  let i := mkBuilderInput (claims c) (request_scope req) addressable obtainable in
  ∃ m_bear m_base m_bull,
    build (bear_multipliers i) = Normal m_bear
    ∧ build i = Normal m_base
    ∧ build (bull_multipliers i) = Normal m_bull
    ∧ scenarios r =
        Scenarios.mk (Some (Scenario.mk (js "bear") (market_response m_bear)))
                     (Some (Scenario.mk (js "base") (market_response m_base)))
                     (Some (Scenario.mk (js "bull") (market_response m_bull)))
    ∧ ∀ st, isLoading st = false → truthy_prop (error st) = false →
            data st = Some r →
            scenario_tables (render st) =
              [[scenario_row "Bear" (Scenario.mk (js "bear") (market_response m_bear));
                scenario_row "Base" (Scenario.mk (js "base") (market_response m_base));
                scenario_row "Bull" (Scenario.mk (js "bull") (market_response m_bull))]].
Proof.
  intros Ha i.
  apply analyze_inv in Ha
    as (m & bear & base & bull & _ & _ & Hbear & Hbase & Hbull & _ & _ & Hs & _).
  fold i in Hbear, Hbase, Hbull. unfold scenario in *.
  destruct (Core.build _ (bear_multipliers i)) as [m1|] eqn:E1; [|discriminate].
  destruct (Core.build _ i) as [m2|] eqn:E2; [|discriminate].
  destruct (Core.build _ (bull_multipliers i)) as [m3|] eqn:E3; [|discriminate].
  simpl in *. injection Hbear as <-. injection Hbase as <-. injection Hbull as <-.
  exists m1, m2, m3. repeat split; try done.
  intros st Hl He Hd. unfold scenario_tables.
  rewrite (ReportFacts.render_memo st r Hl He Hd). cbn [sections_of].
  rewrite ReportFacts.memo_scenarios, Hs. reflexivity.
Qed.

(** C8.  The sensitivity analysis of a response is in descending order of
    impact magnitude; it is a rearrangement of the results computed in
    declaration order in which entries of equal magnitude keep that order;
    and each entry's magnitude is the larger of the two absolute changes of
    [som.base]. *)
Theorem sensitivity_sorted_stable req c addressable obtainable tracked r :
  analyze req c addressable obtainable tracked = Normal r →
  let i := mkBuilderInput (claims c) (request_scope req) addressable obtainable in
  StronglySorted descending (sensitivity_analysis r)
  ∧ Forall magnitude_consistent (sensitivity_analysis r)
  ∧ ∃ declared,
      collect (sensitivity_result aggregate_tam i) tracked = Normal declared
      ∧ Sensitivity.assumption_name <$> declared = tracked_name <$> tracked
      ∧ Permutation declared (sensitivity_analysis r)
      ∧ ∀ m, tied m (sensitivity_analysis r) = tied m declared.
Proof.
  intros Ha i.
  apply analyze_inv in Ha
    as (m & _ & _ & _ & declared & _ & _ & _ & _ & Hc & _ & _ & Hs & _).
  rewrite Hs. fold i in Hc. pose proof (collect_Forall2 _ _ _ Hc) as Hf.
  assert (Hd : Forall magnitude_consistent declared
               ∧ Sensitivity.assumption_name <$> declared = tracked_name <$> tracked).
  { clear Hc Hs. induction Hf as [|a x l l' Hx _ IH]; [by split|].
    destruct IH as [IH1 IH2].
    apply sensitivity_result_consistent in Hx as [? Hn]. split.
    - by constructor.
    - rewrite !fmap_cons. by rewrite Hn, IH2. }
  destruct Hd as [Hd1 Hd2].
  split; [apply sort_by_magnitude_sorted|].
  split.
  - eapply Permutation_Forall; [apply sort_by_magnitude_perm|exact Hd1].
  - exists declared. repeat split; try done.
    + apply sort_by_magnitude_perm.
    + intros q. apply sort_by_magnitude_tied.
Qed.

(** The response carries [evidence_ledger] exactly when the
    request asked for [debug]. *)
Lemma evidence_ledger_iff_debug req c addressable obtainable tracked r :
  analyze req c addressable obtainable tracked = Normal r →
  is_Some (evidence_ledger r) ↔ debug req = true.
Proof.
  intros Ha.
  apply analyze_inv in Ha as (m & _ & _ & _ & _ & _ & _ & _ & _ & _ & _ & _ & _ & _ & Hl & _).
  rewrite Hl. by destruct (debug req); split; intros H.
Qed.

End PipelineFacts.

(** An Evidence Ledger section is on the page only when
    debug mode is on and the response has a non-empty ledger, which is then
    what the section lists. *)
Lemma ledger_section_only_in_debug (st : State) (cards : list LedgerEntry.t) :
  cards ∈ ledger_sections (render st) →
  debugMode st = true
  ∧ ∃ d, data st = Some d ∧ evidence_ledger d = Some cards ∧ cards ≠ [].
Proof.
  unfold ledger_sections, render.
  destruct (isLoading st); cbn [sections_of flat_map]; [by intros ?%elem_of_nil|].
  destruct (data st) as [d|]; cbn [sections_of flat_map]; [|by intros ?%elem_of_nil].
  destruct (truthy_prop (error st)); cbn [sections_of flat_map];
    [by intros ?%elem_of_nil|].
  rewrite ReportFacts.memo_ledger.
  destruct (debugMode st); [|by intros ?%elem_of_nil].
  destruct (evidence_ledger d) as [ledger|] eqn:E; [|by intros ?%elem_of_nil].
  destruct ledger as [|e ledger]; cbn [non_empty]; [by intros ?%elem_of_nil|].
  intros ->%list_elem_of_singleton. split; [done|]. exists d. by repeat split.
Qed.

(** C5.  For every analysis, the response contains the evidence ledger
    exactly when the request's [debug] flag was true; and the report page
    shows the Evidence Ledger section only when debug mode is on and the
    response's ledger is non-empty. *)
Theorem evidence_ledger_debug :
  (∀ aggregate_tam bear_multipliers bull_multipliers raw_confidence policy
     generate_content req c addressable obtainable tracked r,
     Core.analyze aggregate_tam bear_multipliers bull_multipliers raw_confidence
                  policy generate_content req c addressable obtainable tracked
       = Normal r →
     is_Some (evidence_ledger r) ↔ debug req = true)
  ∧ (∀ st cards,
       cards ∈ ledger_sections (render st) →
       debugMode st = true
       ∧ ∃ d, data st = Some d ∧ evidence_ledger d = Some cards ∧ cards ≠ []).
Proof.
  split.
  - intros. by eapply evidence_ledger_iff_debug.
  - apply ledger_section_only_in_debug.
Qed.


(** ** The sample analysis *)


(** A funnel assumption range of twice the market is no share: the
    analysis ends in a [ValidationError] and there is no response. *)
Lemma oversized_share_refused :
  Samples.analyze false Samples.oversized Samples.obtainable
  = Throw "ValidationError".
Proof. vm_compute. reflexivity. Qed.

Lemma confidence_score_range_witness :
  ∃ r, Samples.analyze false Samples.addressable Samples.obtainable = Normal r
       ∧ ∃ z : Z, confidence_score r = inject_Z z ∧ (0 ≤ z ≤ 100)%Z.
Proof.
  destruct (Samples.analyze false Samples.addressable Samples.obtainable)
    as [r|e] eqn:E; [|vm_compute in E; discriminate].
  exists r. split; [reflexivity|]. unfold Samples.analyze in E.
  exact (confidence_score_range _ _ _ _ _ _ _ _ _ _ _ _ E).
Defined.

Lemma scenarios_all_present_witness :
  ∃ r, Samples.analyze false Samples.addressable Samples.obtainable = Normal r
       ∧ ∃ bear base bull,
           scenarios r = Scenarios.mk (Some bear) (Some base) (Some bull).
Proof.
  destruct (Samples.analyze false Samples.addressable Samples.obtainable)
    as [r|e] eqn:E; [|vm_compute in E; discriminate].
  exists r. split; [reflexivity|]. unfold Samples.analyze in E.
  destruct (scenarios_all_present _ _ _ _ _ _ _ _ _ _ _ _ E)
    as (m1 & m2 & m3 & _ & _ & _ & Hs & _).
  rewrite Hs. by do 3 eexists.
Defined.

(** The two funnel shares tie at magnitude 6 and stay in declaration order,
    ahead of the price, which does not move [som.base]. *)
Lemma sensitivity_sorted_stable_witness :
  ∃ r, Samples.analyze false Samples.addressable Samples.obtainable = Normal r
       ∧ StronglySorted descending (sensitivity_analysis r)
       ∧ Sensitivity.assumption_name <$> sensitivity_analysis r
         = [js "addressable_share"; js "obtainable_share"; js "price"].
Proof.
  destruct (Samples.analyze false Samples.addressable Samples.obtainable)
    as [r|e] eqn:E; [|vm_compute in E; discriminate].
  exists r. split; [reflexivity|]. unfold Samples.analyze in E.
  split.
  - exact (proj1 (sensitivity_sorted_stable _ _ _ _ _ _ _ _ _ _ _ _ E)).
  - vm_compute in E. injection E as <-. vm_compute. reflexivity.
Defined.

Lemma evidence_ledger_debug_witness :
  (∃ r, Samples.analyze true Samples.addressable Samples.obtainable = Normal r
        ∧ is_Some (evidence_ledger r))
  ∧ debugMode (Samples.page Samples.response true) = true.
Proof.
  destruct evidence_ledger_debug as [Hresponse Hpage].
  split.
  - destruct (Samples.analyze true Samples.addressable Samples.obtainable)
      as [r|e] eqn:E; [|vm_compute in E; discriminate].
    exists r. split; [reflexivity|]. unfold Samples.analyze in E.
    apply (Hresponse _ _ _ _ _ _ _ _ _ _ _ _ E). reflexivity.
  - apply (Hpage (Samples.page Samples.response true) [Samples.entry]).
    apply list_elem_of_here.
Defined.


End CoreFacts.

(** * More on the input form *)

Module HomeMore.
Import JS Home HomeView Claims.

(** X1.  Changes of two different fields commute: the state after both does
    not depend on which came first. *)
Theorem handleChange_commute (a b : string) (v w : jsstring) (st : State) :
  a ≠ b →
  handleChange a v (handleChange b w st) = handleChange b w (handleChange a v st).
Proof.
  intros Hab. unfold handleChange.
  destruct (truthy_prop (errors st !! a)) eqn:Ea,
           (truthy_prop (errors st !! b)) eqn:Eb; simpl;
    rewrite ?lookup_delete_ne by done; rewrite ?Ea, ?Eb; simpl;
    f_equal; try apply insert_insert_ne; try done; apply delete_delete.
Qed.

Lemma handleChange_commute_witness :
  handleChange "idea" (js "x") (handleChange "notes" (js "y") Samples.rejected)
  = handleChange "notes" (js "y") (handleChange "idea" (js "x") Samples.rejected).
Proof. apply handleChange_commute. discriminate. Defined.

(** X2.  Of two changes of the same field the last one wins: the first
    leaves no trace in [formData], [errors] or the loading flag. *)
Theorem handleChange_overwrite (a : string) (v w : jsstring) (st : State) :
  handleChange a v (handleChange a w st) = handleChange a v st.
Proof.
  unfold handleChange.
  destruct (truthy_prop (errors st !! a)) eqn:Ea; simpl.
  - rewrite lookup_delete_eq. simpl. by rewrite insert_insert_eq.
  - rewrite Ea. by rewrite insert_insert_eq.
Qed.

Lemma newErrors_keys (fd : gmap string jsstring) (k : string) :
  is_Some (newErrors fd !! k) → k ∈ validated_fields.
Proof.
  rewrite HomeFacts.newErrors_lookup. unfold validated_fields.
  repeat (case_bool_decide; [subst k; intros _; set_solver|]).
  rewrite !andb_false_r. by intros [? ?].
Qed.

(** In every state the page reaches, only validated fields carry an error. *)
Lemma reachable_errors_keys (c : State * Browser) (k : string) :
  reachable c → is_Some (errors c.1 !! k) → k ∈ validated_fields.
Proof.
  induction 1 as [br|ev [st br] _ IH]; simpl in *.
  - rewrite lookup_empty. by intros [? ?].
  - destruct ev as [name value|value| |]; simpl.
    + unfold handleChange. destruct (truthy_prop (errors st !! name)); simpl; [|done].
      rewrite lookup_delete. case_decide; [by intros [? ?]|done].
    + done.
    + rewrite lookup_empty. by intros [? ?].
    + rewrite HomeFacts.handleSubmit_cases. cbv zeta.
      destruct (validateForm st).1, (storage_writable br); simpl;
        apply newErrors_keys.
Qed.

Lemma shown_error_of_control (name k : string) (msg : jsstring) (st : State) :
  (λ m, (control_name (validated_control name st), m))
    <$> control_error (validated_control name st) = Some (k, msg)
  ↔ k = name ∧ errors st !! name = Some msg ∧ truthy msg = true.
Proof.
  unfold validated_control. simpl.
  destruct (errors st !! name) as [m|]; simpl.
  - destruct (truthy m) eqn:E; simpl; split.
    + intros [= <- <-]. done.
    + intros (-> & [= ->] & _). done.
    + discriminate.
    + intros (_ & [= ->] & H). congruence.
  - split; [discriminate|]. by intros (_ & ? & _).
Qed.

(** X3.  In every state the page reaches, the error paragraphs on display
    are exactly the entries of [errors]: each entry is shown under its own
    control, and nothing else is shown. *)
Theorem errors_all_shown (c : State * Browser) (k : string) (msg : jsstring) :
  reachable c →
  (k, msg) ∈ shown_errors (render c.1) ↔ errors c.1 !! k = Some msg.
Proof.
  intros Hc. destruct c as [st br]. simpl.
  unfold shown_errors. rewrite list_elem_of_omap. split.
  - intros (ctl & Hin & Hs). unfold render in Hin. simpl in Hin.
    repeat (apply elem_of_cons in Hin as [->|Hin];
            [apply shown_error_of_control in Hs as (-> & Hs & _); exact Hs|]).
    apply elem_of_cons in Hin as [->|Hin]; [discriminate|].
    by apply elem_of_nil in Hin.
  - intros He.
    pose proof (reachable_errors_keys (st, br) k Hc (ex_intro _ msg He)) as Hk.
    pose proof (HomeFacts.reachable_errors_truthy (st, br) Hc k msg He) as Ht.
    simpl in Ht. exists (validated_control k st). split.
    + unfold render, validated_fields in *. simpl.
      repeat (apply elem_of_cons in Hk as [->|Hk]; [set_solver|]).
      by apply elem_of_nil in Hk.
    + by apply shown_error_of_control.
Qed.

Lemma errors_all_shown_witness :
  ("idea", js "Startup idea is required") ∈ shown_errors (render Samples.rejected).
Proof.
  apply (errors_all_shown (Samples.rejected, Samples.browser)).
  - change (Samples.rejected, Samples.browser)
      with (handle Submit (initial, Samples.browser)).
    apply reachable_step, reachable_initial.
  - vm_compute. reflexivity.
Defined.

Lemma run_snoc (evs : list event) (ev : event) (c : State * Browser) :
  run (evs ++ [ev]) c = handle ev (run evs c).
Proof. unfold run. by rewrite foldl_app. Qed.

(** X4.  Whatever events the form handles, it touches no key of
    localStorage other than [atlas_request], pushes no route other than
    [/report], logs nothing but its storage error, and leaves the rest of
    the browser alone. *)
Theorem run_confined (evs : list event) (st : State) (br : Browser) :
  (∀ k, k ≠ "atlas_request" →
        localStorage (run evs (st, br)).2 !! k = localStorage br !! k)
  ∧ storage_writable (run evs (st, br)).2 = storage_writable br
  ∧ (∃ n, history (run evs (st, br)).2 = replicate n "/report" ++ history br)
  ∧ (∃ m, console (run evs (st, br)).2
          = replicate m "Error storing request:" ++ console br).
Proof.
  induction evs as [|ev evs IH] using rev_ind.
  - simpl. repeat split; [by exists 0..].
  - rewrite run_snoc. destruct (run evs (st, br)) as [st' br'] eqn:E.
    simpl in IH. destruct IH as (Hs & Hw & [n Hn] & [m Hm]).
    destruct ev as [name value|value| |]; simpl; [eauto 10..|].
    rewrite HomeFacts.handleSubmit_cases. cbv zeta.
    destruct (validateForm st').1, (storage_writable br') eqn:W; simpl.
    + repeat split.
      * intros k Hk. rewrite lookup_insert_ne by done. by apply Hs.
      * congruence.
      * exists (S n). simpl. by rewrite Hn.
      * by exists m.
    + repeat split; eauto. exists (S m). simpl. by rewrite Hm.
    + eauto 10.
    + eauto 10.
Qed.

(** ** The price field *)

Lemma inject_Z_of_N_nonneg (n : N) : (0 <= inject_Z (Z.of_N n))%Q.
Proof. unfold Qle. simpl. lia. Qed.

(** Without a minus sign in front, [parseFloat] reads no negative number. *)
Lemma parseFloat_unsigned (s : jsstring) :
  starts_with_minus s = false →
  match parseFloat s with
  | NaN => True
  | Infinity negative => negative = false
  | Finite q => (0 <= q)%Q
  end.
Proof.
  unfold starts_with_minus, parseFloat. intros Hm.
  assert (Hs : (parse_sign (trimStart s)).1 = false).
  { destruct (trimStart s) as [|c r]; simpl; [done|]. rewrite Hm.
    by destruct (c =? 43)%N. }
  destruct (parse_sign (trimStart s)) as [neg s1]. simpl in Hs. subst neg.
  destruct (strip_prefix _ s1); [done|].
  destruct (take_digits s1) as [ip s2].
  destruct (match s2 with
            | [] => ([], [])
            | c :: r => if (c =? 46)%N then take_digits r else ([], s2)
            end) as [fp s3].
  destruct (ip ++ fp) as [|d ds] eqn:E; [done|].
  rewrite Qred_correct. apply Qmult_le_0_compat.
  - apply inject_Z_of_N_nonneg.
  - by apply Qpower_0_le.
Qed.

Lemma stored_price_null_or_non_negative (fd : gmap string jsstring) :
  starts_with_minus (fd !!! "price_assumption") = false →
  null_or_non_negative (JSON_stringify (requestData fd) !! "price_assumption").
Proof.
  intros Hm. rewrite HomeFacts.requestData_price. unfold null_or_non_negative.
  destruct (truthy (fd !!! "price_assumption")); [|by left].
  pose proof (parseFloat_unsigned _ Hm) as Hp.
  destruct (parseFloat (fd !!! "price_assumption")) as [|neg|q]; simpl;
    [by left..|].
  right. by exists q.
Qed.

(** X5.  The request [handleSubmit] builds has a negative price only if the
    price text, leading white space apart, starts with a minus sign:
    otherwise the price is [null] or a non-negative number. *)
Theorem stored_price_non_negative (fd : gmap string jsstring) :
  starts_with_minus (fd !!! "price_assumption") = false →
  null_or_non_negative (JSON_stringify (requestData fd) !! "price_assumption").
Proof.
  intros Hm. rewrite HomeFacts.requestData_price. unfold null_or_non_negative.
  destruct (truthy (fd !!! "price_assumption")); [|by left].
  pose proof (parseFloat_unsigned _ Hm) as Hp.
  destruct (parseFloat (fd !!! "price_assumption")) as [|neg|q]; simpl;
    [by left..|].
  right. by exists q.
Qed.

Lemma stored_price_non_negative_witness :
  null_or_non_negative
    (JSON_stringify (requestData EXAMPLE_DATA) !! "price_assumption").
Proof. apply stored_price_non_negative. reflexivity. Defined.

Lemma parseFloat_digit (s : jsstring) :
  starts_with_digit s = true → ∃ q, parseFloat s = Finite q.
Proof.
  unfold starts_with_digit, parseFloat.
  destruct (trimStart s) as [|c r]; [discriminate|]. intros Hd.
  assert (Hc : (48 <= c <= 57)%N).
  { unfold is_digit in Hd. apply andb_true_iff in Hd as [H1 H2].
    apply N.leb_le in H1, H2. lia. }
  unfold parse_sign.
  destruct (N.eqb_spec c 45) as [->|_]; [lia|].
  destruct (N.eqb_spec c 43) as [->|_]; [lia|].
  assert (strip_prefix (js "Infinity") (c :: r) = None) as ->.
  { change (strip_prefix (js "Infinity") (c :: r))
      with (if (73 =? c)%N then strip_prefix (js "nfinity") r else None).
    destruct (N.eqb_spec 73 c) as [<-|_]; [lia|done]. }
  simpl take_digits. rewrite Hd.
  destruct (take_digits r) as [ds s2].
  destruct (match s2 with
            | [] => ([], [])
            | c0 :: r0 => if (c0 =? 46)%N then take_digits r0 else ([], s2)
            end) as [fp s3].
  simpl. by eexists.
Qed.

(** X6.  A price text that, leading white space apart, starts with a digit
    passes validation whatever follows the number: [parseFloat] does not
    answer [NaN], [validateForm] puts no error on the price, and the request
    carries [null] or a non-negative number. *)
Theorem price_numeric_prefix_accepted (fd : gmap string jsstring) :
  starts_with_digit (fd !!! "price_assumption") = true →
  parseFloat (fd !!! "price_assumption") ≠ NaN
  ∧ newErrors fd !! "price_assumption" = None
  ∧ null_or_non_negative
      (JSON_stringify (requestData fd) !! "price_assumption").
Proof.
  intros Hd. destruct (parseFloat_digit _ Hd) as [q Hq].
  assert (Ht : truthy (fd !!! "price_assumption") = true).
  { unfold starts_with_digit in Hd.
    destruct (fd !!! "price_assumption"); [discriminate|done]. }
  assert (Hm : starts_with_minus (fd !!! "price_assumption") = false).
  { unfold starts_with_digit, starts_with_minus, is_digit in *.
    destruct (trimStart (fd !!! "price_assumption")) as [|c r]; [done|].
    apply andb_true_iff in Hd as [H1 H2]. apply N.leb_le in H1.
    apply N.eqb_neq. lia. }
  split; [by rewrite Hq|]. split.
  - rewrite HomeFacts.newErrors_lookup, Hq, Ht. simpl.
    repeat match goal with
           | |- context [bool_decide (?a = ?b)] =>
               let e := eval vm_compute in (bool_decide (a = b)) in
               change (bool_decide (a = b)) with e
           end.
    by rewrite !andb_false_r.
  - by apply stored_price_null_or_non_negative.
Qed.

(** The text [12abc] is accepted, and the request carries 12. *)
Lemma price_numeric_prefix_accepted_witness :
  newErrors (<["price_assumption" := js "12abc"]> EXAMPLE_DATA) !! "price_assumption"
  = None
  ∧ JSON_stringify (requestData (<["price_assumption" := js "12abc"]> EXAMPLE_DATA))
      !! "price_assumption" = Some (VNum (Finite 12)).
Proof.
  assert (Hd : starts_with_digit
                 (<["price_assumption" := js "12abc"]> EXAMPLE_DATA
                    !!! "price_assumption") = true) by (vm_compute; reflexivity).
  destruct (price_numeric_prefix_accepted
              (<["price_assumption" := js "12abc"]> EXAMPLE_DATA) Hd)
    as (_ & Hn & _).
  split; [exact Hn|]. vm_compute. reflexivity.
Defined.

Lemma parseFloat_blank (s : jsstring) :
  forallb is_whitespace s = true → parseFloat s = NaN.
Proof.
  intros H. apply HomeFacts.trimStart_nil in H. unfold parseFloat. by rewrite H.
Qed.

(** X7.  A price text of white space only is not taken for an empty field:
    it is rejected with the number error, and the form does not submit. *)
Theorem blank_price_rejected (st : State) (br : Browser) :
  formData st !!! "price_assumption" ≠ [] →
  forallb is_whitespace (formData st !!! "price_assumption") = true →
  newErrors (formData st) !! "price_assumption"
    = Some (js "Price assumption must be a valid number")
  ∧ (validateForm st).1 = false
  ∧ (handleSubmit st br).2 = br.
Proof.
  intros Hne Hws.
  assert (Hp : newErrors (formData st) !! "price_assumption"
               = Some (js "Price assumption must be a valid number")).
  { rewrite HomeFacts.newErrors_lookup, (parseFloat_blank _ Hws).
    apply HomeFacts.truthy_non_empty in Hne. by rewrite Hne. }
  assert (Hv : (validateForm st).1 = false).
  { unfold validateForm. simpl. apply bool_decide_eq_false.
    rewrite map_size_empty_iff. intros He. rewrite He in Hp. done. }
  split; [done|]. split; [done|].
  rewrite HomeFacts.handleSubmit_cases. cbv zeta. by rewrite Hv.
Qed.

Lemma blank_price_rejected_witness :
  (validateForm (handleChange "price_assumption" (js " ") Samples.filled)).1 = false.
Proof.
  refine (proj1 (proj2 (blank_price_rejected
            (handleChange "price_assumption" (js " ") Samples.filled)
            Samples.browser _ _))).
  - vm_compute. discriminate.
  - vm_compute. reflexivity.
Defined.

(** X8.  The free-text geography input is on the page only while the
    geography is the option [Other]: typing anything else into it removes
    it, and whatever non-empty text was typed passes the geography check,
    listed option or not. *)
Theorem geography_other_vanishes (value : jsstring) (st : State) :
  value ≠ js "Other" →
  geography_other (render (handleGeographyOther value st)) = false
  ∧ formData (handleGeographyOther value st) !!! "geography" = value
  ∧ (value ≠ [] →
     newErrors (formData (handleGeographyOther value st)) !! "geography" = None).
Proof.
  intros Hv. unfold handleGeographyOther, render. simpl.
  rewrite lookup_total_insert_eq. split; [by apply bool_decide_eq_false|].
  split; [done|]. intros Hne.
  rewrite HomeFacts.newErrors_lookup.
  rewrite lookup_total_insert_eq.
  apply HomeFacts.truthy_non_empty in Hne. rewrite Hne. simpl.
  repeat match goal with
         | |- context [bool_decide (?a = ?b)] =>
             let e := eval vm_compute in (bool_decide (a = b)) in
             change (bool_decide (a = b)) with e
         end.
  by rewrite !andb_false_r.
Qed.

Lemma geography_other_vanishes_witness :
  geography_other
    (render (handleGeographyOther (js "B")
               (handleChange "geography" (js "Other") Samples.filled))) = false.
Proof.
  refine (proj1 (geography_other_vanishes (js "B") _ _)). discriminate.
Defined.

End HomeMore.

(** * More on the report page *)

Module ReportMore.
Import JS Report ReportEffects.

(** ** Loading the analysis *)


(** X10.  [runAnalysis] and [checkPdfEndpoint], started together on mount,
    write different state cells: whichever settles first, the page ends in
    the same state. *)
Theorem runAnalysis_checkPdf_commute (fetch : document → fetched json_body)
    (head : fetched unit) (st : State) (br : Browser) :
  runAnalysis fetch (checkPdfEndpoint head st) br
  = (checkPdfEndpoint head (runAnalysis fetch st br).1,
     (runAnalysis fetch st br).2).
Proof.
  unfold runAnalysis, checkPdfEndpoint.
  destruct (localStorage br !! "atlas_request") as [req|]; simpl.
  - destruct (fetch (JSON_stringify (request_body req))) as [e|r];
      [|destruct (ok r); simpl; [destruct (body r)|]];
      destruct head as [?|h]; try done;
      by destruct ((status h =? 404) || (status h =? 405)).
  - destruct head as [?|h]; [done|].
    by destruct ((status h =? 404) || (status h =? 405)).
Qed.

(** ** The PDF download *)

(** X11.  A click on Download PDF ends in one of two ways, never with the
    button left busy: either the file [atlas_memo.pdf] is downloaded, the
    error is cleared and the button stays; or nothing is downloaded, the
    button is hidden and an error is recorded.  The first happens exactly
    when a request is stored, the server answers with an ok status and the
    body reads as a blob. *)
Theorem handleDownloadPDF_outcome {B : Type} (post : document → fetched B)
    (st : State) (br : Browser) :
  let st' := (handleDownloadPDF post st br).1 in
  let files := (handleDownloadPDF post st br).2 in
  isDownloading st' = false
  ∧ ((files = ["atlas_memo.pdf"] ∧ pdfError st' = None
      ∧ pdfAvailable st' = pdfAvailable st)
     ∨ (files = [] ∧ pdfAvailable st' = false ∧ is_Some (pdfError st')))
  ∧ (files = ["atlas_memo.pdf"] ↔
       ∃ req r blob,
         localStorage br !! "atlas_request" = Some req
         ∧ post (JSON_stringify (request_body req)) = Fulfilled r
         ∧ ok r = true ∧ body r = inr blob).
Proof.
  unfold handleDownloadPDF.
  destruct (localStorage br !! "atlas_request") as [req|] eqn:Hr; simpl.
  2:{ split; [done|]. split; [right; by repeat split|].
      split; [discriminate|]. intros (? & ? & ? & ? & _); discriminate. }
  destruct (post (JSON_stringify (request_body req))) as [e|r] eqn:Hp; simpl.
  { split; [done|]. split; [right; by repeat split|].
    split; [discriminate|]. intros (? & ? & ? & [= <-] & ? & _); congruence. }
  destruct (status r =? 404) eqn:H404; simpl.
  { split; [done|]. split; [right; by repeat split|].
    split; [discriminate|].
    intros (? & r' & ? & [= <-] & Hp' & Hok & _). rewrite Hp in Hp'.
    injection Hp' as <-. apply Nat.eqb_eq in H404. unfold ok in Hok.
    rewrite H404 in Hok. discriminate. }
  destruct (ok r) eqn:Hok; simpl.
  2:{ split; [done|]. split; [right; by repeat split|].
      split; [discriminate|].
      intros (? & r' & ? & [= <-] & Hp' & Hok' & _). congruence. }
  destruct (body r) as [e|blob] eqn:Hb; simpl.
  { split; [done|]. split; [right; by repeat split|].
    split; [discriminate|].
    intros (? & r' & ? & [= <-] & Hp' & _ & Hb'). rewrite Hp in Hp'.
    injection Hp' as <-. congruence. }
  split; [done|]. split; [left; by repeat split|].
  split; [intros _|done]. exists req, r, blob. by repeat split.
Qed.

(** The click and the answer together are the handler awaited on its
    own. *)
Lemma handleDownloadPDF_two_turns {B : Type} (post : document → fetched B)
    (st : State) (br : Browser) :
  handleDownloadPDF post st br
  = download_settled (download_response post br) (download_started st).
Proof.
  unfold handleDownloadPDF, download_settled, download_response, download_started.
  destruct (localStorage br !! "atlas_request") as [req|]; [|done].
  destruct (post _) as [e|r]; [done|].
  destruct (status r =? 404); [done|].
  destruct (ok r); simpl; [|done]. by destruct (body r).
Qed.

Lemma handle_pdf_hidden (ev : event) (p : Page) :
  pdfAvailable (state p) = false → pdfAvailable (state (handle ev p)) = false.
Proof.
  intros Hp.
  destruct ev as [fetch|head|post| |date|written| |checked| |]; simpl.
  - destruct (runAnalysis fetch (state p) (browser p)) as [st' br'] eqn:E.
    simpl. unfold runAnalysis in E.
    destruct (localStorage (browser p) !! "atlas_request") as [req|];
      [|by injection E as <- <-].
    injection E as <- <-. simpl.
    destruct (fetch _) as [e|r]; [done|].
    destruct (ok r); simpl; [|done]. by destruct (body r).
  - unfold checkPdfEndpoint. destruct head as [?|h]; [done|].
    by destruct ((status h =? 404) || (status h =? 405)).
  - rewrite Hp. by rewrite andb_false_r.
  - destruct (in_flight p) as [|o rest]; [done|]. by destruct o.
  - by destruct (in_memo (state p)).
  - destruct (in_memo (state p)); [|done]. unfold handleCopySummary.
    destruct (data (state p)); [|done]. by destruct written.
  - done.
  - by destruct (in_memo (state p)).
  - by destruct (in_memo (state p) && debugMode (state p)).
  - by destruct (isLoading (state p)).
Qed.

Lemma handle_no_pdf (ev : event) (p : Page) :
  pdfAvailable (state p) = false → in_flight p = [] →
  in_flight (handle ev p) = [] ∧ pdf_downloads (handle ev p) = pdf_downloads p.
Proof.
  intros Hp Hf.
  destruct ev as [fetch|head|post| |date|written| |checked| |]; simpl.
  - by destruct (runAnalysis fetch (state p) (browser p)).
  - done.
  - rewrite Hp. by rewrite andb_false_r.
  - by rewrite Hf.
  - destruct (in_memo (state p)); [|done]. split; [done|].
    unfold handleExportJSON. by destruct (data (state p)).
  - destruct (in_memo (state p)); [|done].
    by destruct (handleCopySummary written (state p) (browser p)).
  - done.
  - by destruct (in_memo (state p)).
  - by destruct (in_memo (state p) && debugMode (state p)).
  - by destruct (isLoading (state p)).
Qed.

(** X12.  Once the Download PDF button is hidden it never comes back: no
    event of the page sets [pdfAvailable] again.  With the button gone no
    new PDF request starts, so when none is waiting for its answer no PDF
    is downloaded any more, whatever else the page does (Export JSON still
    downloads its file). *)
Theorem pdf_hidden_for_good (evs : list event) (p : Page) :
  pdfAvailable (state p) = false →
  pdfAvailable (state (run evs p)) = false
  ∧ (in_flight p = [] →
     in_flight (run evs p) = [] ∧ pdf_downloads (run evs p) = pdf_downloads p).
Proof.
  revert p. induction evs as [|ev evs IH]; intros p Hp; [done|].
  simpl. destruct (IH (handle ev p) (handle_pdf_hidden ev p Hp)) as [H1 H2].
  split; [exact H1|]. intros Hf.
  destruct (handle_no_pdf ev p Hp Hf) as [Hf' Hd].
  destruct (H2 Hf') as [H3 H4]. split; [exact H3|]. by rewrite H4.
Qed.

(** The memo after a 404 to the HEAD request: neither a later 200 nor a
    click brings the button back, and the only file downloaded is the JSON
    export. *)
Lemma pdf_hidden_for_good_witness :
  let p := run [PdfChecked (Fulfilled (mkHttp 200 (js "OK") (inr tt)));
                DownloadClicked (λ _, Fulfilled (mkHttp 200 (js "OK") (inr tt)));
                DownloadAnswered;
                ExportJSONClicked "2024-01-01"]
               (mkPage (checkPdfEndpoint
                          (Fulfilled (mkHttp 404 (js "Not Found") (inr tt)))
                          (Samples.page Samples.response false))
                       Samples.browser [] []) in
  pdfAvailable (state p) = false
  ∧ pdf_downloads p = []
  ∧ downloads p = ["atlas_analysis_2024-01-01.json"].
Proof.
  intros p.
  destruct (pdf_hidden_for_good
              [PdfChecked (Fulfilled (mkHttp 200 (js "OK") (inr tt)));
               DownloadClicked (λ _, Fulfilled (mkHttp 200 (js "OK") (inr tt)));
               DownloadAnswered;
               ExportJSONClicked "2024-01-01"]
              (mkPage (checkPdfEndpoint
                         (Fulfilled (mkHttp 404 (js "Not Found") (inr tt)))
                         (Samples.page Samples.response false))
                      Samples.browser [] []) eq_refl) as [Ha Hn].
  split; [exact Ha|]. split; [exact (proj2 (Hn eq_refl))|].
  vm_compute. reflexivity.
Defined.

(** ** From the form to the request the report page posts *)

Lemma posted_body_lookup (fd : gmap string jsstring) (k : string) :
  k ≠ "price_assumption" →
  posted_body fd !! k = json_value <$> (json_value <$> Home.requestData fd !! k).
Proof.
  intros Hk. unfold posted_body, request_body, JSON_stringify.
  rewrite lookup_fmap, lookup_insert_ne by done. by rewrite lookup_fmap.
Qed.

Lemma runAnalysis_debug_off (fetch : document → fetched json_body)
    (fd : gmap string jsstring) (st : State) (br : Browser) :
  debugMode st = false →
  localStorage br !! "atlas_request"
    = Some (JSON_stringify (Home.requestData fd)) →
  debugMode (runAnalysis fetch st br).1 = false.
Proof.
  intros Hd Hs. unfold runAnalysis. rewrite Hs. simpl.
  destruct (fetch _) as [e|r]; simpl; [done|].
  destruct (ok r); simpl; [|done].
  destruct (body r); simpl; [done|].
  by rewrite HomeFacts.requestData_debug.
Qed.

(** X13.  A form that validates, submitted in a browser that accepts the
    write, reaches the report page whole: the only request [runAnalysis]
    sends carries every form field as typed (not trimmed) and [debug] false,
    and the page comes up with debug mode off. *)
Theorem form_to_report (st : Home.State) (br : Browser)
    (fetch fetch' : document → fetched json_body) :
  (Home.validateForm st).1 = true → storage_writable br = true →
  let fd := Home.formData st in
  let br' := (Home.handleSubmit st br).2 in
  (fetch (posted_body fd) = fetch' (posted_body fd) →
   runAnalysis fetch initial br' = runAnalysis fetch' initial br')
  ∧ posted_body fd !! "debug" = Some (VBool false)
  ∧ (∀ k, k ≠ "price_assumption" → k ≠ "debug" →
          posted_body fd !! k = VStr <$> fd !! k)
  ∧ debugMode (runAnalysis fetch initial br').1 = false.
Proof.
  intros Hv Hw fd br'.
  assert (Hs : localStorage br' !! "atlas_request"
               = Some (JSON_stringify (Home.requestData fd))).
  { subst br'. rewrite HomeFacts.handleSubmit_cases. cbv zeta.
    rewrite Hv, Hw. simpl. apply lookup_insert_eq. }
  split; [|split; [|split]].
  - intros Hf. unfold runAnalysis. rewrite Hs. fold (posted_body fd).
    by rewrite Hf.
  - rewrite posted_body_lookup by done. unfold Home.requestData.
    by rewrite lookup_insert_eq.
  - intros k Hp Hd. rewrite posted_body_lookup by done. unfold Home.requestData.
    rewrite !lookup_insert_ne by done. rewrite lookup_fmap.
    by destruct (fd !! k).
  - by apply (runAnalysis_debug_off fetch fd).
Qed.

Lemma form_to_report_witness :
  posted_body (Home.formData Samples.filled) !! "industry"
  = Some (VStr (js "FinTech")).
Proof.
  destruct (form_to_report Samples.filled Samples.browser
              (λ _, Rejected OtherValue) (λ _, Rejected OtherValue))
    as (_ & _ & Hk & _); [vm_compute; reflexivity..|].
  rewrite Hk by discriminate. vm_compute. reflexivity.
Defined.

(** X14.  A price of zero does not survive the way to the API: for a
    price text that reads as zero the form stores the number 0, and the
    report page, which tests the stored price for truthiness, posts [null]
    in its place. *)
Theorem zero_price_dropped (fd : gmap string jsstring) (q : Q) :
  truthy (fd !!! "price_assumption") = true →
  parseFloat (fd !!! "price_assumption") = Finite q →
  (q == 0)%Q →
  JSON_stringify (Home.requestData fd) !! "price_assumption"
    = Some (VNum (Finite q))
  ∧ posted_body fd !! "price_assumption" = Some VNull.
Proof.
  intros Ht Hq Hz.
  assert (Hs : JSON_stringify (Home.requestData fd) !! "price_assumption"
               = Some (VNum (Finite q))).
  { by rewrite HomeFacts.requestData_price, Ht, Hq. }
  split; [exact Hs|].
  unfold posted_body, request_body. unfold JSON_stringify at 1.
  rewrite lookup_fmap, lookup_insert_eq, Hs. simpl.
  apply Qeq_bool_iff in Hz. by rewrite Hz.
Qed.

Lemma zero_price_dropped_witness :
  JSON_stringify (Home.requestData (<["price_assumption" := js "0"]> Home.EXAMPLE_DATA))
    !! "price_assumption" = Some (VNum (Finite 0))
  ∧ posted_body (<["price_assumption" := js "0"]> Home.EXAMPLE_DATA)
      !! "price_assumption" = Some VNull.
Proof.
  apply (zero_price_dropped (<["price_assumption" := js "0"]> Home.EXAMPLE_DATA) 0);
    vm_compute; reflexivity.
Defined.

(** ** The memo *)

Lemma elem_of_when {A} (c : bool) (x y : A) : y ∈ when c x → c = true ∧ y = x.
Proof.
  destruct c; simpl.
  - intros ->%list_elem_of_singleton. done.
  - by intros ?%elem_of_nil.
Qed.

Lemma non_empty_true {A} (l : list A) : non_empty l = true → l ≠ [].
Proof. by destruct l. Qed.

Lemma risk_groups_never_empty (r : Risks.t) :
  Forall (λ g : string * list jsstring, g.2 ≠ []) (risk_groups r).
Proof.
  unfold risk_groups. rewrite !Forall_app.
  repeat split;
    match goal with
    | |- Forall _ (when ?c _) =>
        destruct c eqn:E; simpl; constructor;
          [by apply non_empty_true|constructor]
    end.
Qed.

(** X15.  The memo never shows an empty section: the scenario and
    competitor tables, the assumption, disconfirming-evidence, key-unknown
    and test lists, the evidence ledger and every risk group are on the page
    only with at least one entry. *)
Theorem memo_never_empty (d : AnalyzeResponse) (st : State) (s : section) :
  s ∈ memo d st → never_empty s.
Proof.
  unfold memo. intros H.
  apply elem_of_app in H as [H|H].
  { apply list_elem_of_singleton in H as ->. exact I. }
  apply elem_of_app in H as [H|H].
  { pose proof (ReportFacts.idea_title_sections st) as Hf.
    rewrite Forall_forall in Hf. by destruct (Hf _ H) as [v ->]. }
  apply elem_of_app in H as [H|H].
  { repeat (apply elem_of_cons in H as [->|H]; [exact I|]).
    by apply elem_of_nil in H. }
  apply elem_of_app in H as [H|H].
  { apply elem_of_when in H as [Hc ->]. simpl. unfold scenario_rows.
    destruct (Scenarios.bear (scenarios d)), (Scenarios.base (scenarios d)),
             (Scenarios.bull (scenarios d)); try done. }
  apply elem_of_app in H as [H|H].
  { apply elem_of_when in H as [Hc ->]. simpl.
    by destruct (competitors d). }
  apply elem_of_app in H as [H|H].
  { apply list_elem_of_singleton in H as ->. apply risk_groups_never_empty. }
  apply elem_of_app in H as [H|H].
  { apply elem_of_when in H as [Hc ->]. by apply non_empty_true. }
  apply elem_of_app in H as [H|H].
  { apply elem_of_when in H as [Hc ->]. by apply non_empty_true. }
  apply elem_of_app in H as [H|H].
  { apply list_elem_of_singleton in H as ->. exact I. }
  apply elem_of_app in H as [H|H].
  { apply elem_of_when in H as [Hc ->]. by apply non_empty_true. }
  apply elem_of_app in H as [H|H].
  { apply elem_of_when in H as [Hc ->]. by apply non_empty_true. }
  apply elem_of_app in H as [H|H].
  { destruct (debugMode st); [|by apply elem_of_nil in H].
    unfold debug_sections in H. apply elem_of_cons in H as [->|H]; [exact I|].
    destruct (evidence_ledger d) as [ledger|]; [|by apply elem_of_nil in H].
    apply elem_of_when in H as [Hc ->]. by apply non_empty_true. }
  apply list_elem_of_singleton in H as ->. exact I.
Qed.

Lemma memo_never_empty_witness :
  never_empty (CompetitorsSection
                 (competitor_row <$> competitors Samples.response)).
Proof.
  apply (memo_never_empty Samples.response (Samples.page Samples.response false)).
  vm_compute. do 5 right. left.
Defined.

(** X16.  The Risks section loses no risk and invents none: its groups,
    read in order, give the market, competition, regulatory and
    distribution risks of the response, and a category without risks has no
    heading. *)
Theorem risk_groups_complete (r : Risks.t) :
  concat (snd <$> risk_groups r)
  = Risks.market r ++ Risks.competition r ++ Risks.regulatory r
    ++ Risks.distribution r
  ∧ Forall (λ g : string * list jsstring, g.2 ≠ []) (risk_groups r).
Proof.
  split; [|apply risk_groups_never_empty].
  unfold risk_groups.
  destruct (Risks.market r), (Risks.competition r), (Risks.regulatory r),
           (Risks.distribution r); simpl; by rewrite ?app_nil_r.
Qed.

(** X17.  A source card carries a credibility badge only in debug mode, and
    then the badge is the non-empty credibility of a ledger entry of type
    [source] with the URL of that source. *)
Theorem source_badge_origin (d : AnalyzeResponse) (debug : bool) (s : Source.t)
    (badge : jsstring) :
  card_badge (source_card d debug s) = Some badge →
  debug = true
  ∧ badge ≠ []
  ∧ ∃ ledger claim,
      evidence_ledger d = Some ledger
      ∧ claim ∈ ledger
      ∧ LedgerEntry.source_url claim = Source.url s
      ∧ LedgerEntry.claim_type claim = js "source"
      ∧ LedgerEntry.credibility_score claim = badge.
Proof.
  unfold source_card. simpl.
  destruct debug; simpl; [|discriminate].
  destruct (evidence_ledger d) as [ledger|]; simpl; [|discriminate].
  destruct (List.find _ ledger) as [claim|] eqn:Hf; simpl; [|discriminate].
  destruct (truthy (LedgerEntry.credibility_score claim)) eqn:Ht; [|discriminate].
  intros [= <-]. split; [done|].
  split; [by apply HomeFacts.truthy_non_empty|].
  apply find_some in Hf as [Hin Hc].
  apply andb_true_iff in Hc as [H1 H2].
  apply bool_decide_eq_true in H1, H2.
  exists ledger, claim. repeat split; try done. by apply list_elem_of_In.
Qed.

Lemma source_badge_origin_witness :
  ∃ d s, card_badge (source_card d true s) = Some (js "high")
         ∧ evidence_ledger d ≠ None.
Proof.
  set (claim := LedgerEntry.mk (js "s1") (js "a source") (js "source") None None
                  (js "https://example.org/report") (js "") (js "") (js "high")
                  (js "high")).
  set (d := mkResponse CONDITIONAL 50 []
              (Report.market Samples.response) [] (Risks.mk [] [] [] []) [] [] [] [] []
              (Scenarios.mk None None None) [] (Some [claim])).
  set (s := Source.mk (js "Report") (js "https://example.org/report") (js "")).
  assert (Hb : card_badge (source_card d true s) = Some (js "high"))
    by (vm_compute; reflexivity).
  exists d, s. split; [exact Hb|].
  destruct (source_badge_origin d true s (js "high") Hb)
    as (_ & _ & ledger & _ & Hl & _).
  by rewrite Hl.
Defined.

(** ** [formatCurrency] *)

Lemma toFixed2_at_least_one (x : Q) :
  (1 <= x)%Q → (x < 10 ^ 21)%Q →
  toFixed2 x = Fixed false (Qfloor (x * 100 + (1 # 2)))
  ∧ (100 ≤ Qfloor (x * 100 + (1 # 2)))%Z.
Proof.
  intros H1 H2. unfold toFixed2.
  assert (Ha : Qabs x == x) by (apply Qabs_pos; lra).
  assert (Qle_bool (10 ^ 21) (Qabs x) = false) as ->.
  { destruct (Qle_bool (10 ^ 21) (Qabs x)) eqn:E; [|done].
    apply Qle_bool_iff in E. rewrite Ha in E. lra. }
  assert (Qle_bool 0 x = true) as -> by (apply Qle_bool_iff; lra).
  cbn [negb].
  assert (Hf : Qfloor (Qabs x * 100 + (1 # 2)) = Qfloor (x * 100 + (1 # 2))).
  { apply Qfloor_comp. by rewrite Ha. }
  rewrite Hf. split; [done|].
  pose proof (Qfloor_resp_le (inject_Z 100) (x * 100 + (1 # 2))) as Hle.
  rewrite Qfloor_Z in Hle. apply Hle. unfold inject_Z. lra.
Qed.

(** X18.  [formatCurrency] switches unit at a million and at a billion and
    never shows less than 1.00 of a unit: from a million up to a billion it
    shows between 1.00 and 1000.00 millions, from a billion on at least 1.00
    billions, and below a million the plain value. *)
Theorem formatCurrency_mantissa (value : Q) :
  ((value < 1000000)%Q → formatCurrency value = Locale value)
  ∧ ((1000000 <= value)%Q → (value < 1000000000)%Q →
     ∃ n, formatCurrency value = Millions (Fixed false n)
          ∧ (100 ≤ n ≤ 100000)%Z)
  ∧ ((1000000000 <= value)%Q → (value < 10 ^ 30)%Q →
     ∃ n, formatCurrency value = Billions (Fixed false n) ∧ (100 ≤ n)%Z).
Proof.
  unfold formatCurrency. split; [|split].
  - intros H.
    assert (Qle_bool 1000000000 value = false) as ->.
    { destruct (Qle_bool 1000000000 value) eqn:E; [|done].
      apply Qle_bool_iff in E. lra. }
    assert (Qle_bool 1000000 value = false) as ->; [|done].
    destruct (Qle_bool 1000000 value) eqn:E; [|done].
    apply Qle_bool_iff in E. lra.
  - intros H1 H2.
    assert (Qle_bool 1000000000 value = false) as ->.
    { destruct (Qle_bool 1000000000 value) eqn:E; [|done].
      apply Qle_bool_iff in E. lra. }
    assert (Qle_bool 1000000 value = true) as -> by by apply Qle_bool_iff.
    assert (Hx : (1 <= value / 1000000)%Q) by (apply Qle_shift_div_l; lra).
    assert (Hy : (value / 1000000 < 1000)%Q) by (apply Qlt_shift_div_r; lra).
    destruct (toFixed2_at_least_one (value / 1000000) Hx) as [-> Hn].
    { eapply Qlt_le_trans; [exact Hy|]. by vm_compute. }
    eexists. split; [reflexivity|]. split; [exact Hn|].
    pose proof (Qfloor_resp_le (value / 1000000 * 100 + (1 # 2))
                  (100000 + (1 # 2))) as Hle.
    apply Hle. lra.
  - intros H1 H2.
    assert (Qle_bool 1000000000 value = true) as -> by by apply Qle_bool_iff.
    assert (Hx : (1 <= value / 1000000000)%Q) by (apply Qle_shift_div_l; lra).
    assert (Hy : (value / 1000000000 < 10 ^ 21)%Q).
    { apply Qlt_shift_div_r; [lra|]. eapply Qlt_le_trans; [exact H2|].
      by vm_compute. }
    destruct (toFixed2_at_least_one (value / 1000000000) Hx Hy) as [-> Hn].
    eexists. split; [reflexivity|]. exact Hn.
Qed.

(** One dollar short of a billion is shown as 1000.00 millions. *)
Lemma formatCurrency_mantissa_witness :
  formatCurrency 999999999 = Millions (Fixed false 100000)
  ∧ ∃ n, formatCurrency 2500000000 = Billions (Fixed false n) ∧ (100 ≤ n)%Z.
Proof.
  destruct (formatCurrency_mantissa 999999999) as (_ & Hm & _).
  destruct (formatCurrency_mantissa 2500000000) as (_ & _ & Hb).
  split; [|apply Hb; by vm_compute].
  destruct Hm as (n & Hn & _); [by vm_compute..|].
  pose proof Hn as Hc. vm_compute in Hc. injection Hc as Hc. subst n.
  exact Hn.
Defined.

End ReportMore.
